(** * audit_pipeline.py: a shallow embedding and its checked properties

    The program is a command-line orchestrator: it validates a contract
    path, optionally fetches on-chain metadata over HTTP, probes for the
    external analyzer, runs it, and assembles a report.  Everything it
    does goes through the operating system (processes, the network, the
    environment, the clock), so the embedding is a small monad over

    - an [env]: the answers of the outside world (what a process does,
      what an HTTP request returns, which paths exist, ...), and
    - a [state]: the trace of effects performed so far and the number of
      clock readings taken,

    with three outcomes: a value, a raised Python exception, or a call
    that never returns. *)

From Stdlib Require Import ZArith QArith Ascii String.
From stdpp Require Import gmap strings list fin_maps pretty.

Set Warnings "-register-all".

Local Open Scope string_scope.
Local Open Scope Z_scope.

(** ** Python strings *)

Module PyStr.

(** Strings are sequences of bytes (the UTF-8 encoding of the Python
    [str]).  [lower] maps the ASCII capitals only.  Python also
    lower-cases the characters outside ASCII, to text that is outside
    ASCII again, but for the Kelvin sign (to k) and the dotted capital I
    (to i and a combining dot): neither way does such a string become
    one of the five bucket names, none of which has a k. *)
Definition lower_ascii (c : ascii) : ascii :=
  let n := nat_of_ascii c in
  if ((65 <=? n)%nat && (n <=? 90)%nat)%bool then ascii_of_nat (n + 32) else c.

Fixpoint lower (s : string) : string :=
  match s with
  | EmptyString => EmptyString
  | String c s' => String (lower_ascii c) (lower s')
  end.

(** [s.startswith(p)] *)
Fixpoint startswith (p s : string) : bool :=
  match p, s with
  | EmptyString, _ => true
  | String a p', String b s' => if Ascii.eqb a b then startswith p' s' else false
  | String _ _, EmptyString => false
  end.

Fixpoint drop (n : nat) (s : string) : string :=
  match n, s with
  | O, _ => s
  | S n', String _ s' => drop n' s'
  | S _, EmptyString => EmptyString
  end.

(** [s.endswith(p)] *)
Definition endswith (p s : string) : bool :=
  (String.length p <=? String.length s)%nat
  && String.eqb (drop (String.length s - String.length p) s) p.

(** [needle in hay] *)
Fixpoint contains (needle hay : string) : bool :=
  startswith needle hay
  || match hay with
     | EmptyString => false
     | String _ hay' => contains needle hay'
     end.

(** [s.replace(old, new)] for a non-empty [old]: the leftmost
    occurrences, not overlapping.  [skip] counts the characters of a
    match that are still to be passed over. *)
Fixpoint replace_from (old new : string) (skip : nat) (s : string) : string :=
  match s with
  | EmptyString => EmptyString
  | String c s' =>
      match skip with
      | S k => replace_from old new k s'
      | O =>
          if startswith old s
          then new +:+ replace_from old new (String.length old - 1) s'
          else String c (replace_from old new 0 s')
      end
  end.

Definition replace (old new s : string) : string := replace_from old new 0 s.

End PyStr.

(** ** Exceptions and results *)

(** The exception classes the program can meet.  All of them derive from
    [Exception]; the interpreter's asynchronous signals (KeyboardInterrupt,
    SystemExit) are not part of the model.  The last four are the classes
    of [requests.exceptions]. *)
Inductive exn_class :=
  | CalledProcessError | TimeoutExpired
  | FileNotFoundError | PermissionError | OSError
  | JSONDecodeError | ValueError | TypeError | AttributeError
  | KeyError | IndexError | OverflowError | UnicodeDecodeError
  | RequestException | ReqConnectionError | ReqTimeout | ReqJSONDecodeError.

(** An exception object: its class and [str(e)]. *)
Record exn := Exn { exn_cls : exn_class; exn_msg : string }.

(** [isinstance(e, requests.RequestException)] *)
Definition is_RequestException (c : exn_class) : bool :=
  match c with
  | RequestException | ReqConnectionError | ReqTimeout | ReqJSONDecodeError => true
  | _ => false
  end.

(** A pure Python operation either yields a value or raises. *)
Inductive result (A : Type) :=
  | Ok (a : A)
  | Err (e : exn).
Arguments Ok {A} a.
Arguments Err {A} e.

Definition rbind {A B} (r : result A) (k : A -> result B) : result B :=
  match r with
  | Ok a => k a
  | Err e => Err e
  end.

Declare Scope py_scope.
Delimit Scope py_scope with py.
Notation "'let?' x ':=' r 'in' k" := (rbind r (fun x => k))
  (at level 10, x name, r at level 100, k at level 200) : py_scope.

(** ** Python values as they come out of a JSON parser *)

(** A finite float is the rational it stands for. *)
Inductive json :=
  | JNull
  | JBool (b : bool)
  | JInt (n : Z)
  | JFloat (q : Q)
  | JNaN
  | JInfinity
  | JStr (s : string)
  | JArr (l : list json)
  | JObj (kvs : list (string * json)).

(** A [JObj] is a dict; a key is looked up at its first binding. *)
Fixpoint assoc (k : string) (kvs : list (string * json)) : option json :=
  match kvs with
  | [] => None
  | (k', v) :: rest => if String.eqb k k' then Some v else assoc k rest
  end.

Module Py.

Local Open Scope py_scope.

Definition type_name (v : json) : string :=
  match v with
  | JNull => "NoneType"
  | JBool _ => "bool"
  | JInt _ => "int"
  | JFloat _ | JNaN | JInfinity => "float"
  | JStr _ => "str"
  | JArr _ => "list"
  | JObj _ => "dict"
  end.

Definition no_attribute (v : json) (attr : string) : exn :=
  Exn AttributeError
      ("'" +:+ type_name v +:+ "' object has no attribute '" +:+ attr +:+ "'").

(** [v.get(k, default)]: only a dict has the method. *)
Definition get (v : json) (k : string) (default : json) : result json :=
  match v with
  | JObj kvs => Ok (from_option id default (assoc k kvs))
  | _ => Err (no_attribute v "get")
  end.

(** [v.lower()]: only a string has the method. *)
Definition lower (v : json) : result string :=
  match v with
  | JStr s => Ok (PyStr.lower s)
  | _ => Err (no_attribute v "lower")
  end.

(** Truth value of [v] in a condition. *)
Definition truthy (v : json) : bool :=
  match v with
  | JNull => false
  | JBool b => b
  | JInt n => negb (n =? 0)
  | JFloat q => negb (Qnum q =? 0)
  | JNaN | JInfinity => true
  | JStr s => negb (String.eqb s "")
  | JArr l => match l with [] => false | _ => true end
  | JObj kvs => match kvs with [] => false | _ => true end
  end.

(** [v == s] for a string literal [s]. *)
Definition eq_str (v : json) (s : string) : bool :=
  match v with
  | JStr t => String.eqb t s
  | _ => false
  end.

Fixpoint chars (s : string) : list json :=
  match s with
  | EmptyString => []
  | String c s' => JStr (String c EmptyString) :: chars s'
  end.

(** The elements a [for] loop over [v] visits: the items of a list, the
    characters of a string, the keys of a dict. *)
Definition iter (v : json) : result (list json) :=
  match v with
  | JArr l => Ok l
  | JStr s => Ok (chars s)
  | JObj kvs => Ok (JStr <$> kvs.*1)
  | _ => Err (Exn TypeError ("'" +:+ type_name v +:+ "' object is not iterable"))
  end.

(** [len(v)] *)
Definition len (v : json) : result nat :=
  match v with
  | JArr l => Ok (length l)
  | JStr s => Ok (String.length s)
  | JObj kvs => Ok (length kvs)
  | _ => Err (Exn TypeError ("object of type '" +:+ type_name v +:+ "' has no len()"))
  end.

Definition is_list (v : json) : bool :=
  match v with JArr _ => true | _ => false end.

(** [v[k]] for a string key. *)
Definition getitem (v : json) (k : string) : result json :=
  match v with
  | JObj kvs =>
      match assoc k kvs with
      | Some x => Ok x
      | None => Err (Exn KeyError ("'" +:+ k +:+ "'"))
      end
  | JArr _ => Err (Exn TypeError "list indices must be integers or slices, not str")
  | JStr _ => Err (Exn TypeError "string indices must be integers, not 'str'")
  | _ => Err (Exn TypeError ("'" +:+ type_name v +:+ "' object is not subscriptable"))
  end.

(** [v[0]] *)
Definition first (v : json) : result json :=
  match v with
  | JArr (x :: _) => Ok x
  | JArr [] => Err (Exn IndexError "list index out of range")
  | JStr (String c _) => Ok (JStr (String c EmptyString))
  | JStr EmptyString => Err (Exn IndexError "string index out of range")
  | JObj _ => Err (Exn KeyError "0")
  | _ => Err (Exn TypeError ("'" +:+ type_name v +:+ "' object is not subscriptable"))
  end.

(** [int(v)].  For a string the parser of integer literals of the
    interpreter decides, [of_str]: it knows the white space and the
    decimal digits of every script, the sign, the underscores, the limit
    on the number of digits, and words the [ValueError].  A float is
    truncated toward zero. *)
Definition int (of_str : string -> result Z) (v : json) : result Z :=
  match v with
  | JInt n => Ok n
  | JBool b => Ok (if b then 1 else 0)
  | JFloat q => Ok (Z.quot (Qnum q) (Z.pos (Qden q)))
  | JNaN => Err (Exn ValueError "cannot convert float NaN to integer")
  | JInfinity => Err (Exn OverflowError "cannot convert float infinity to integer")
  | JStr s => of_str s
  | _ => Err (Exn TypeError
                ("int() argument must be a string, a bytes-like object or a real number, not '"
                 +:+ type_name v +:+ "'"))
  end.

End Py.

(** ** Configuration and data classes *)

Inductive AuditLevel := QUICK | STANDARD | DEEP | FORENSIC.

Global Instance AuditLevel_eq_dec : EqDecision AuditLevel.
Proof. solve_decision. Defined.

(** [level.value] *)
Definition level_value (l : AuditLevel) : string :=
  match l with
  | QUICK => "quick"
  | STANDARD => "standard"
  | DEEP => "deep"
  | FORENSIC => "forensic"
  end.

Definition ETHERSCAN_API : string := "https://api.etherscan.io/api".

Definition TOOLS_CONFIG : list string :=
  ["slither"; "mythril"; "echidna"; "certora"; "mythx"].

(** [execution_time] is in microseconds: the source divides the
    difference of two clock readings by 10^6 into a float. *)
Record AuditResult := mkAuditResult {
  tool_name : string;
  severity_count : gmap string nat;
  findings : json;
  execution_time : Z;
  passed : bool
}.

(** The dict [run_audit] returns: either the one-field error report or
    the full report, whose [results] entries repeat four fields of each
    [AuditResult]. *)
Record ToolSummary := mkToolSummary {
  summary_tool : string;
  summary_passed : bool;
  summary_severity_count : gmap string nat;
  summary_execution_time : Z
}.

Inductive Report :=
  | ErrorReport (error : string)
  | FullReport (contract audit_level timestamp : string)
               (results : list ToolSummary) (metadata : gmap string json).

(** ** The outside world *)

Inductive log_level := INFO | ERROR | SUCCESS.

(** What the program does to the outside world, in the order it does it. *)
Inductive event :=
  | EvLog (level : log_level) (message : string)
  | EvPathExists (path : string)
  | EvGetenv (name : string)
  | EvRun (argv : list string) (capture_output text check : bool) (timeout : option Z)
  | EvImport (module : string)
  | EvGet (url : string) (timeout : Z)
  | EvOpen (path : string)
  | EvOutput (file : option string) (report : Report).

(** What a child process does once [subprocess.run] starts it. *)
Inductive proc_behaviour :=
  | RunFails (e : exn)
      (* the executable is missing or not runnable, the output cannot be decoded, ... *)
  | Terminates (seconds : Q) (returncode : Z) (stdout stderr : string)
  | RunsForever.

(** What [requests.get(url, timeout=t)] followed by [.json()] gives.
    The timeout bounds each wait on the socket, not the call: a server
    that keeps sending, slowly, keeps the call from returning. *)
Inductive http_behaviour :=
  | GetFails (e : exn)
  | Responds (body : result json)
  | Stalls.

(** The answers of the outside world and of the interpreter's library
    functions (the JSON parser and [int] on arbitrary text, the local
    time zone). *)
Record env := Env {
  path_exists : string -> bool;
  getenv : string -> option string;
  process : list string -> proc_behaviour;
  requests_importable : bool;
  http : string -> http_behaviour;
  clock : nat -> Z;
      (* the successive readings of datetime.now(), in microseconds *)
  json_loads : string -> result json;
  int_of_str : string -> result Z;
      (* int(s) for a string s *)
  fromtimestamp_isoformat : Z -> result string;
      (* datetime.fromtimestamp(t).isoformat() *)
  now_isoformat : Z -> string;
      (* isoformat() of a clock reading *)
  open_write : string -> option exn
}.

Record state := State { trace : list event; ticks : nat }.

Inductive outcome (A : Type) :=
  | Ret (a : A)
  | Raise (e : exn)
  | Hang.
Arguments Ret {A} a.
Arguments Raise {A} e.
Arguments Hang {A}.

Definition M (A : Type) : Type := env -> state -> outcome A * state.

Definition ret {A} (a : A) : M A := fun _ st => (Ret a, st).

Definition bind {A B} (m : M A) (k : A -> M B) : M B :=
  fun w st =>
    match m w st with
    | (Ret a, st') => k a w st'
    | (Raise e, st') => (Raise e, st')
    | (Hang, st') => (Hang, st')
    end.

Definition raise {A} (e : exn) : M A := fun _ st => (Raise e, st).

Definition hang {A} : M A := fun _ st => (Hang, st).

Definition emit (ev : event) : M unit :=
  fun _ st => (Ret tt, State (trace st ++ [ev]) (ticks st)).

Definition ask {A} (f : env -> A) : M A := fun w st => (Ret (f w), st).

Definition lift {A} (r : result A) : M A :=
  match r with
  | Ok a => ret a
  | Err e => raise e
  end.

(** [datetime.now()] *)
Definition now : M Z :=
  fun w st => (Ret (clock w (ticks st)), State (trace st) (S (ticks st))).

(** [try: m except ...]: the handler says which exceptions it catches. *)
Definition try_except {A} (m : M A) (handler : exn -> option (M A)) : M A :=
  fun w st =>
    match m w st with
    | (Raise e, st') =>
        match handler e with
        | Some h => h w st'
        | None => (Raise e, st')
        end
    | other => other
    end.

Declare Scope m_scope.
Delimit Scope m_scope with M.
Notation "x <- m ;; k" := (bind m (fun x => k))
  (at level 100, m at next level, right associativity) : m_scope.
Notation "m ;; k" := (bind m (fun _ => k))
  (at level 100, right associativity) : m_scope.
Local Open Scope m_scope.

(** ** Logger *)

(** Each method reads the clock for the time stamp and prints one line
    ([error] to the standard error stream). *)
Module Logger.
Definition log (level : log_level) (message : string) : M unit :=
  _ <- now ;; emit (EvLog level message).
Definition info := log INFO.
Definition error := log ERROR.
Definition success := log SUCCESS.
End Logger.

(** ** subprocess.run *)

Record CompletedProcess := Completed {
  returncode : Z;
  stdout : string;
  stderr : string
}.

Definition repr_argv (argv : list string) : string :=
  "[" +:+ String.concat ", " ((fun a => "'" +:+ a +:+ "'") <$> argv) +:+ "]".

Definition within (timeout : option Z) (seconds : Q) : bool :=
  match timeout with
  | None => true
  | Some t => Qle_bool seconds (inject_Z t)
  end.

Definition subprocess_run (argv : list string)
    (capture_output text check : bool) (timeout : option Z) : M CompletedProcess :=
  emit (EvRun argv capture_output text check timeout) ;;
  behaviour <- ask (fun w => process w argv) ;;
  match behaviour with
  | RunFails e => raise e
  | RunsForever =>
      match timeout with
      | Some t => raise (Exn TimeoutExpired
                    ("Command '" +:+ repr_argv argv +:+ "' timed out after "
                     +:+ pretty t +:+ " seconds"))
      | None => hang
      end
  | Terminates seconds rc out err =>
      if negb (within timeout seconds)
      then raise (Exn TimeoutExpired
                    ("Command '" +:+ repr_argv argv +:+ "' timed out after "
                     +:+ pretty (default 0 timeout) +:+ " seconds"))
      else if check && negb (rc =? 0)
      then raise (Exn CalledProcessError
                    ("Command '" +:+ repr_argv argv
                     +:+ "' returned non-zero exit status " +:+ pretty rc +:+ "."))
      else ret (Completed rc out err)
  end.

(** ** Utility functions *)

Definition check_tool_installed (tool_name : string) : M bool :=
  try_except
    ((if String.eqb tool_name "slither"
      then subprocess_run ["slither"; "--version"] true false true None ;; ret tt
      else if String.eqb tool_name "mythril"
      then subprocess_run ["myth"; "--version"] true false true None ;; ret tt
      else if String.eqb tool_name "echidna"
      then subprocess_run ["echidna"; "--version"] true false true None ;; ret tt
      else if String.eqb tool_name "certora"
      then subprocess_run ["certoraRun"; "--version"] true false true None ;; ret tt
      else ret tt) ;;
     ret true)
    (fun e =>
       match exn_cls e with
       | CalledProcessError | FileNotFoundError => Some (ret false)
       | _ => None
       end).

Definition validate_contract_path (contract_path : string) : M bool :=
  emit (EvPathExists contract_path) ;;
  found <- ask (fun w => path_exists w contract_path) ;;
  if negb found
  then Logger.error ("Contract file not found: " +:+ contract_path) ;; ret false
  else if negb (PyStr.endswith ".sol" contract_path)
  then Logger.error ("Contract must be a Solidity file (.sol): " +:+ contract_path) ;;
       ret false
  else ret true.

(** ** SlitherAnalyzer *)

Module SlitherAnalyzer.

Local Open Scope py_scope.

Definition buckets : list string :=
  ["critical"; "high"; "medium"; "low"; "informational"].

Definition initial_count : gmap string nat :=
  <["critical" := 0%nat]> (<["high" := 0%nat]> (<["medium" := 0%nat]>
    (<["low" := 0%nat]> (<["informational" := 0%nat]> ∅)))).

(** One turn of the loop over the detections. *)
Definition count_issue (sc : gmap string nat) (issue : json) : result (gmap string nat) :=
  let? raw := Py.get issue "severity" (JStr "informational") in
  let? severity := Py.lower raw in
  match sc !! severity with
  | Some n => Ok (<[severity := S n]> sc)
  | None => Ok sc
  end.

Fixpoint count_issues (sc : gmap string nat) (issues : list json)
    : result (gmap string nat) :=
  match issues with
  | [] => Ok sc
  | issue :: rest =>
      let? sc' := count_issue sc issue in
      count_issues sc' rest
  end.

(** [findings.get("results", {}).get("detections", [])] *)
Definition detections (parsed : json) : result json :=
  let? results := Py.get parsed "results" (JObj []) in
  Py.get results "detections" (JArr []).

(** [sc[k]] *)
Definition count_at (sc : gmap string nat) (k : string) : result nat :=
  match sc !! k with
  | Some n => Ok n
  | None => Err (Exn KeyError ("'" +:+ k +:+ "'"))
  end.

(** [sc["critical"] == 0 and sc["high"] == 0] *)
Definition verdict (sc : gmap string nat) : result bool :=
  let? critical := count_at sc "critical" in
  if (critical =? 0)%nat
  then let? high := count_at sc "high" in Ok (high =? 0)%nat
  else Ok false.

Definition failed : AuditResult :=
  mkAuditResult "Slither" ∅ (JArr []) 0 false.

Local Open Scope m_scope.

Definition run (contract_path : string) : M AuditResult :=
  Logger.info "Running Slither static analysis..." ;;
  start_time <- now ;;
  try_except
    (result <- subprocess_run ["slither"; contract_path; "--json"]
                 true true false (Some 300) ;;
     if returncode result =? 0
     then
       parsed <- bind (ask json_loads) (fun loads => lift (loads (stdout result))) ;;
       reported <- lift (detections parsed) ;;
       issues <- lift (Py.iter reported) ;;
       sc <- lift (count_issues initial_count issues) ;;
       end_time <- now ;;
       ok <- lift (verdict sc) ;;
       reported' <- lift (detections parsed) ;;
       ret (mkAuditResult "Slither" sc reported' (end_time - start_time) ok)
     else
       Logger.error ("Slither failed with error: " +:+ stderr result) ;;
       ret failed)
    (fun e => Some (Logger.error ("Slither execution error: " +:+ exn_msg e) ;;
                    ret failed)).

End SlitherAnalyzer.

(** ** AuditPipeline *)

Record AuditPipeline := mkAuditPipeline {
  contract_path : string;
  audit_level : AuditLevel;
  results : list AuditResult;
  metadata : gmap string json
}.

Module AuditPipeline.

Local Open Scope py_scope.

(** [not s] for an optional string: [None] and the empty string. *)
Definition absent (s : option string) : bool :=
  match s with
  | None => true
  | Some s => String.eqb s ""
  end.

Definition zero_address : string := "0x0000000000000000000000000000000000000000".

Definition tx_url (contract_address api_key : string) : string :=
  ETHERSCAN_API +:+ "?module=account&action=txlist&address=" +:+ contract_address
    +:+ "&startblock=0&endblock=99999999&sort=asc&apikey=" +:+ api_key.

Definition source_url (contract_address api_key : string) : string :=
  ETHERSCAN_API +:+ "?module=contract&action=getsourcecode&address=" +:+ contract_address
    +:+ "&apikey=" +:+ api_key.

(** The loop over the transactions: stops at the first one whose [to]
    is the empty string. *)
Fixpoint find_creation (int_of : string -> result Z) (iso : Z -> result string)
    (txs : list json) : result (option (json * string)) :=
  match txs with
  | [] => Ok None
  | tx :: rest =>
      let? to := Py.get tx "to" JNull in
      if Py.eq_str to ""
      then
        let? deployer := Py.get tx "from" (JStr "Unknown") in
        let? raw := Py.get tx "timeStamp" (JInt 0) in
        let? timestamp := Py.int int_of raw in
        let? creation_date := iso timestamp in
        Ok (Some (deployer, creation_date))
      else find_creation int_of iso rest
  end.

(** The block under [# Parse responses] up to the verification check:
    transaction count, deployer address and creation date. *)
Definition parse_transactions (int_of : string -> result Z) (iso : Z -> result string)
    (tx_data : json) : result (nat * json * string) :=
  let? status := Py.get tx_data "status" JNull in
  let? has_result :=
    if Py.eq_str status "1"
    then (let? r := Py.get tx_data "result" JNull in Ok (Py.truthy r))
    else Ok false in
  if has_result
  then
    let? transactions := Py.getitem tx_data "result" in
    let? transaction_count := Py.len transactions in
    let? txs := Py.iter transactions in
    let? creation := find_creation int_of iso txs in
    match creation with
    | Some (deployer, date) => Ok (transaction_count, deployer, date)
    | None => Ok (transaction_count, JStr "Unknown", "Unknown")
    end
  else Ok (0%nat, JStr "Unknown", "Unknown").

(** The block under [# Check verification status]. *)
Definition parse_verification (source_data : json) : result string :=
  let? status := Py.get source_data "status" JNull in
  let? has_result :=
    if Py.eq_str status "1"
    then (let? r := Py.get source_data "result" JNull in Ok (Py.truthy r))
    else Ok false in
  if has_result
  then
    let? listed := Py.getitem source_data "result" in
    let? result :=
      if Py.is_list listed
      then (let? again := Py.getitem source_data "result" in Py.first again)
      else Py.getitem source_data "result" in
    let? code := Py.get result "SourceCode" JNull in
    Ok (if Py.truthy code then "verified" else "not_verified")
  else Ok "not_verified".

Local Open Scope m_scope.

(** [requests.get(url, timeout=t).json()] *)
Definition get_json (url : string) (timeout : Z) : M json :=
  emit (EvGet url timeout) ;;
  answer <- ask (fun w => http w url) ;;
  match answer with
  | GetFails e => raise e
  | Responds body => lift body
  | Stalls => hang
  end.

Definition fetch_etherscan_data (contract_address : option string) : M json :=
  if absent contract_address
  then ret (JObj
    [("note", JStr "No contract address provided. Pass --address parameter to fetch real data.");
     ("verification_status", JStr "unknown");
     ("transaction_count", JInt 0)])
  else
    let address := default "" contract_address in
    emit (EvGetenv "ETHERSCAN_API_KEY") ;;
    api_key <- ask (fun w => getenv w "ETHERSCAN_API_KEY") ;;
    if absent api_key
    then
      Logger.info "ETHERSCAN_API_KEY not found. Returning simulated data." ;;
      Logger.info "Get your free API key at: https://etherscan.io/apis" ;;
      ret (JObj
        [("note", JStr "Simulated data - set ETHERSCAN_API_KEY for real on-chain data");
         ("contract_address", JStr address);
         ("verification_status", JStr "unknown");
         ("transaction_count", JInt 0);
         ("deployer_address", JStr zero_address);
         ("creation_date", JStr "Unknown")])
    else
      let key := default "" api_key in
      emit (EvImport "requests") ;;
      importable <- ask requests_importable ;;
      if negb importable
      then
        Logger.error "requests library not installed. Install with: pip install requests" ;;
        ret (JObj
          [("error", JStr "requests library not available");
           ("note", JStr "Install requests: pip install requests")])
      else
        Logger.info ("Fetching real on-chain data for " +:+ address +:+ "...") ;;
        try_except
          (tx_data <- get_json (tx_url address key) 10 ;;
           source_data <- get_json (source_url address key) 10 ;;
           int_of <- ask int_of_str ;;
           iso <- ask fromtimestamp_isoformat ;;
           parsed <- lift (parse_transactions int_of iso tx_data) ;;
           verification_status <- lift (parse_verification source_data) ;;
           let '(transaction_count, deployer_address, creation_date) := parsed in
           ret (JObj
             [("contract_address", JStr address);
              ("verification_status", JStr verification_status);
              ("transaction_count", JInt (Z.of_nat transaction_count));
              ("deployer_address", deployer_address);
              ("creation_date", JStr creation_date);
              ("api_endpoint", JStr (PyStr.replace key "***" (tx_url address key)))]))
          (fun e =>
             if is_RequestException (exn_cls e)
             then Some (Logger.error ("Etherscan API error: " +:+ exn_msg e) ;;
                        ret (JObj
                          [("error", JStr ("Failed to fetch data: " +:+ exn_msg e));
                           ("contract_address", JStr address)]))
             else Some (Logger.error ("Unexpected error fetching Etherscan data: "
                                      +:+ exn_msg e) ;;
                        ret (JObj
                          [("error", JStr ("Unexpected error: " +:+ exn_msg e));
                           ("contract_address", JStr address)]))).

(** [self.metadata.get("contract_address")]; the only writer of that
    key, [main], stores a string. *)
Definition address_of (metadata : gmap string json) : option string :=
  match metadata !! "contract_address" with
  | Some (JStr a) => Some a
  | _ => None
  end.

Definition summary (r : AuditResult) : ToolSummary :=
  mkToolSummary (tool_name r) (passed r) (severity_count r) (execution_time r).

(** The method mutates [self]; the pipeline after the call is returned
    next to the report. *)
Definition run_audit (self : AuditPipeline) : M (Report * AuditPipeline) :=
  Logger.info ("Starting " +:+ level_value (audit_level self) +:+ " audit of "
               +:+ contract_path self) ;;
  valid <- validate_contract_path (contract_path self) ;;
  if negb valid
  then ret (ErrorReport "Invalid contract path", self)
  else
    data <- fetch_etherscan_data (address_of (metadata self)) ;;
    let self1 :=
      mkAuditPipeline (contract_path self) (audit_level self) (results self)
                      (<["etherscan_data" := data]> (metadata self)) in
    self2 <-
      (if bool_decide (audit_level self ∈ [QUICK; STANDARD; DEEP; FORENSIC])
       then
         installed <- check_tool_installed "slither" ;;
         if installed
         then
           result <- SlitherAnalyzer.run (contract_path self) ;;
           ret (mkAuditPipeline (contract_path self1) (audit_level self1)
                                (results self1 ++ [result]) (metadata self1))
         else Logger.error "Slither not installed" ;; ret self1
       else ret self1) ;;
    stamp <- now ;;
    isoformat <- ask now_isoformat ;;
    ret (FullReport (contract_path self2) (level_value (audit_level self2))
                    (isoformat stamp) (summary <$> results self2) (metadata self2),
         self2).

End AuditPipeline.

(** ** main *)

(** The parsed command line. *)
Record Args := mkArgs {
  arg_contract : string;
  arg_level : AuditLevel;
  arg_address : option string;
  arg_output : option string
}.

Definition all_passed (rs : list AuditResult) : bool := forallb passed rs.

(** [main] up to [sys.exit]: the value is the exit code, next to the
    pipeline as the run left it. *)
Definition main_run (args : Args) : M (Z * AuditPipeline) :=
  let pipeline := mkAuditPipeline (arg_contract args) (arg_level args) [] ∅ in
  let pipeline :=
    if AuditPipeline.absent (arg_address args)
    then pipeline
    else mkAuditPipeline (contract_path pipeline) (audit_level pipeline) (results pipeline)
           (<["contract_address" := JStr (default "" (arg_address args))]> (metadata pipeline)) in
  ran <- AuditPipeline.run_audit pipeline ;;
  let '(report, pipeline) := ran in
  (if AuditPipeline.absent (arg_output args)
   then emit (EvOutput None report)
   else
     let file := default "" (arg_output args) in
     emit (EvOpen file) ;;
     refused <- ask (fun w => open_write w file) ;;
     match refused with
     | Some e => raise e
     | None =>
         emit (EvOutput (Some file) report) ;;
         Logger.success ("Audit report saved to " +:+ file)
     end) ;;
  ret (if all_passed (results pipeline) then 0 else 1, pipeline).

Definition main (args : Args) : M Z :=
  ran <- main_run args ;; ret (fst ran).

(** ** Vocabulary of the statements *)

(** Events that reach outside the process: a child process or an HTTP
    request. *)
Definition is_subprocess (ev : event) : bool :=
  match ev with EvRun _ _ _ _ _ => true | _ => false end.

Definition is_network (ev : event) : bool :=
  match ev with EvGet _ _ => true | _ => false end.

(** Events of the validation step: log lines and the existence check. *)
Definition is_local (ev : event) : bool :=
  match ev with EvLog _ _ | EvPathExists _ => true | _ => false end.

(** [d[k]] on a returned dict, [None] when [k] is not a key. *)
Definition field (k : string) (v : json) : option json :=
  match v with
  | JObj kvs => assoc k kvs
  | _ => None
  end.

(** Does [needle] occur in a string of the structure (a key or a value)? *)
Fixpoint mentions (needle : string) (v : json) : bool :=
  match v with
  | JStr s => PyStr.contains needle s
  | JArr l => existsb (mentions needle) l
  | JObj kvs =>
      existsb (fun kv => PyStr.contains needle (fst kv) || mentions needle (snd kv)) kvs
  | _ => false
  end.

(** The tool names [check_tool_installed] has a branch for, each with
    the executable it probes. *)
Definition probes : list (string * string) :=
  [("slither", "slither"); ("mythril", "myth");
   ("echidna", "echidna"); ("certora", "certoraRun")].

(** [tx.get("to") == ""] *)
Definition has_empty_to (tx : json) : bool :=
  match Py.get tx "to" JNull with
  | Ok v => Py.eq_str v ""
  | Err _ => false
  end.

(** [int(tx.get("timeStamp", 0))] *)
Definition timestamp_of (w : env) (tx : json) : result Z :=
  rbind (Py.get tx "timeStamp" (JInt 0)) (Py.int (int_of_str w)).

Definition initial_pipeline (args : Args) : AuditPipeline :=
  if AuditPipeline.absent (arg_address args)
  then mkAuditPipeline (arg_contract args) (arg_level args) [] ∅
  else mkAuditPipeline (arg_contract args) (arg_level args) []
         (<["contract_address" := JStr (default "" (arg_address args))]> ∅).

(** [c not in s] *)
Fixpoint avoids (c : ascii) (s : string) : bool :=
  match s with
  | EmptyString => true
  | String a s' => negb (Ascii.eqb a c) && avoids c s'
  end.

Module SlitherSpec.

Import SlitherAnalyzer.
Local Open Scope py_scope.

(** The severity the loop body computes for one issue. *)
Definition severity_of (issue : json) : result string :=
  let? raw := Py.get issue "severity" (JStr "informational") in
  Py.lower raw.

Definition has_severity (bucket : string) (issue : json) : bool :=
  match severity_of issue with
  | Ok s => String.eqb s bucket
  | Err _ => false
  end.

(** How many issues normalise to [bucket]. *)
Definition tally (bucket : string) (issues : list json) : nat :=
  length (List.filter (has_severity bucket) issues).

(** An issue that is a dict without a [severity] key. *)
Definition lacks_severity (issue : json) : bool :=
  match issue with
  | JObj kvs => match assoc "severity" kvs with None => true | Some _ => false end
  | _ => false
  end.

(** The sum of the counters of the five buckets; a bucket that is not
    a key counts for nothing. *)
Definition total (sc : gmap string nat) : nat :=
  sum_list ((fun b => sc !!! b) <$> buckets).

(** What the [if returncode == 0] branch computes from the output. *)
Definition analyse (loads : string -> result json) (out : string)
    : result (gmap string nat * json * bool) :=
  let? parsed := loads out in
  let? reported := detections parsed in
  let? issues := Py.iter reported in
  let? sc := count_issues initial_count issues in
  let? ok := verdict sc in
  Ok (sc, reported, ok).

Definition slither_argv (path : string) : list string := ["slither"; path; "--json"].

(** The result of [run], read off the world. *)
Definition result_of (w : env) (n : nat) (path : string) : AuditResult :=
  match process w (slither_argv path) with
  | Terminates seconds rc out err =>
      if within (Some 300) seconds && (rc =? 0)
      then match analyse (json_loads w) out with
           | Ok (sc, reported, ok) =>
               mkAuditResult "Slither" sc reported
                             (clock w (S (S n)) - clock w (S n)) ok
           | Err _ => failed
           end
      else failed
  | _ => failed
  end.

(** The ways the analysis can go wrong. *)
Inductive analyzer_fails (w : env) (path : string) : Prop :=
  | fails_to_run e :
      process w (slither_argv path) = RunFails e -> analyzer_fails w path
  | never_exits :
      process w (slither_argv path) = RunsForever -> analyzer_fails w path
  | times_out seconds rc out err :
      process w (slither_argv path) = Terminates seconds rc out err ->
      within (Some 300) seconds = false -> analyzer_fails w path
  | exits_nonzero seconds rc out err :
      process w (slither_argv path) = Terminates seconds rc out err ->
      rc <> 0 -> analyzer_fails w path
  | output_malformed seconds rc out err e :
      process w (slither_argv path) = Terminates seconds rc out err ->
      json_loads w out = Err e -> analyzer_fails w path
  | output_misshapen seconds rc out err e :
      process w (slither_argv path) = Terminates seconds rc out err ->
      analyse (json_loads w) out = Err e -> analyzer_fails w path.

End SlitherSpec.

(** ** Sample worlds *)

Definition start : state := State [] 0.

(** [int] on the texts the sample worlds meet: the two time stamps of
    the sample listing, and a word that is no number.  No other text
    reaches it in the runs of this file; the last line answers for all
    of them as for a word of ASCII letters. *)
Definition sample_int (s : string) : result Z :=
  if String.eqb s "1511829681" then Ok 1511829681
  else if String.eqb s "1511831234" then Ok 1511831234
  else Err (Exn ValueError ("invalid literal for int() with base 10: '" +:+ s +:+ "'")).

(** A machine with nothing on it: no file, no variable, no tool, no
    network; the clock advances one second per reading. *)
Definition bare : env := {|
  path_exists := fun _ => false;
  getenv := fun _ => None;
  process := fun argv =>
    RunFails (Exn FileNotFoundError "[Errno 2] No such file or directory");
  requests_importable := true;
  http := fun _ => GetFails (Exn ReqConnectionError "Network is unreachable");
  clock := fun n => Z.of_nat n * 1000000;
  json_loads := fun _ =>
    Err (Exn JSONDecodeError "Expecting value: line 1 column 1 (char 0)");
  int_of_str := sample_int;
  fromtimestamp_isoformat := fun _ => Err (Exn OverflowError "timestamp out of range");
  now_isoformat := fun _ => "2024-01-01T00:00:00";
  open_write := fun _ => None
|}.

Definition with_process (f : list string -> proc_behaviour) (w : env) : env :=
  Env (path_exists w) (getenv w) f (requests_importable w) (http w) (clock w)
      (json_loads w) (int_of_str w) (fromtimestamp_isoformat w) (now_isoformat w)
      (open_write w).

Definition with_files (f : string -> bool) (w : env) : env :=
  Env f (getenv w) (process w) (requests_importable w) (http w) (clock w)
      (json_loads w) (int_of_str w) (fromtimestamp_isoformat w) (now_isoformat w)
      (open_write w).

Definition with_getenv (f : string -> option string) (w : env) : env :=
  Env (path_exists w) f (process w) (requests_importable w) (http w) (clock w)
      (json_loads w) (int_of_str w) (fromtimestamp_isoformat w) (now_isoformat w)
      (open_write w).

Definition with_http (f : string -> http_behaviour) (w : env) : env :=
  Env (path_exists w) (getenv w) (process w) (requests_importable w) f (clock w)
      (json_loads w) (int_of_str w) (fromtimestamp_isoformat w) (now_isoformat w)
      (open_write w).

Definition with_json (f : string -> result json) (w : env) : env :=
  Env (path_exists w) (getenv w) (process w) (requests_importable w) (http w) (clock w)
      f (int_of_str w) (fromtimestamp_isoformat w) (now_isoformat w) (open_write w).

Definition with_local_time (f : Z -> result string) (w : env) : env :=
  Env (path_exists w) (getenv w) (process w) (requests_importable w) (http w) (clock w)
      (json_loads w) (int_of_str w) f (now_isoformat w) (open_write w).

(** The analyzer is installed and exits with status 1 on the contract. *)
Definition analyzer_crashes : env :=
  with_process
    (fun argv =>
       if bool_decide (argv = ["slither"; "--version"])
       then Terminates 1 0 "0.10.0" ""
       else Terminates 2 1 "" "Error: Token.sol: compilation failed")
    bare.

(** JSON text is written below with apostrophes for its double quotes. *)
Fixpoint json_text (s : string) : string :=
  match s with
  | EmptyString => EmptyString
  | String c s' =>
      String (if Ascii.eqb c "'" then ascii_of_nat 34 else c) (json_text s')
  end.

(** The analyzer reports one high and one informational finding, and
    two findings the tally does not know: one without a severity and one
    with a severity outside the five buckets. *)
Definition report_text : string :=
  json_text "{'results': {'detections': [{'severity': 'High'}, {'severity': 'Informational'}, {'check': 'x'}, {'severity': 'Optimization'}]}}".

Definition report_json : json :=
  JObj [("results", JObj [("detections", JArr
    [JObj [("severity", JStr "High")];
     JObj [("severity", JStr "Informational")];
     JObj [("check", JStr "x")];
     JObj [("severity", JStr "Optimization")]])])].

Definition analyzer_reports : env :=
  with_json
    (fun s => if String.eqb s report_text then Ok report_json
              else Err (Exn JSONDecodeError "Expecting value: line 1 column 1 (char 0)"))
    (with_process
       (fun argv =>
          if bool_decide (argv = ["slither"; "--version"])
          then Terminates 1 0 "0.10.0" ""
          else Terminates 2 0 report_text "")
       (with_files (fun p => String.eqb p "Token.sol") bare)).

(** The analyzer is on the path but may not be executed. *)
Definition analyzer_not_executable : env :=
  with_process
    (fun _ => RunFails (Exn PermissionError "[Errno 13] Permission denied: 'slither'"))
    (with_files (fun p => String.eqb p "Token.sol") bare).

(** The contract file exists, nothing else does. *)
Definition only_contract : env := with_files (fun p => String.eqb p "Token.sol") bare.

Definition sample_address : string := "0xdAC17F958D2ee523a2206206994597C13D831ec7".
Definition sample_key : string := "K3Y5ECRETK3Y5ECRETK3Y5ECRETK3Y5EC".

Definition with_key (w : env) : env :=
  with_getenv (fun name => if String.eqb name "ETHERSCAN_API_KEY"
                           then Some sample_key else None) w.

(** A credential is configured and the explorer cannot be reached:
    [requests] reports the failure the way it does for a refused or
    unresolvable connection, naming the path and query of the request. *)
Definition explorer_unreachable : env :=
  with_http
    (fun url => GetFails (Exn ReqConnectionError
       ("HTTPSConnectionPool(host='api.etherscan.io', port=443): Max retries exceeded with url: "
        +:+ PyStr.drop 24 url
        +:+ " (Caused by NewConnectionError: Failed to establish a new connection)")))
    (with_key bare).

(** A credential is configured and the explorer answers both requests:
    a creation transaction followed by a transfer, and verified source. *)
Definition sample_transactions : list json :=
  [JObj [("from", JStr "0x36928500bc1dcd7af6a2b4008875cc336b927d57");
         ("to", JStr "");
         ("timeStamp", JStr "1511829681")];
   JObj [("from", JStr "0xc6cde7c39eb2f0f0095f41570af89efc2c1ea828");
         ("to", JStr "0xdac17f958d2ee523a2206206994597c13d831ec7");
         ("timeStamp", JStr "1511831234")]].

Definition sample_tx_data : json :=
  JObj [("status", JStr "1"); ("message", JStr "OK"); ("result", JArr sample_transactions)].

Definition sample_source_data : json :=
  JObj [("status", JStr "1"); ("message", JStr "OK");
        ("result", JArr [JObj [("SourceCode", JStr "pragma solidity ^0.4.17;");
                               ("ContractName", JStr "TetherToken")]])].

Definition explorer_answers : env :=
  with_local_time
    (fun t => if t =? 1511829681 then Ok "2017-11-28T00:41:21"
              else Err (Exn OverflowError "timestamp out of range for platform time_t"))
    (with_http
       (fun url =>
          if String.eqb url (AuditPipeline.tx_url sample_address sample_key)
          then Responds (Ok sample_tx_data)
          else Responds (Ok sample_source_data))
       (with_key bare)).

(** The same, for an address that only ever received transfers. *)
Definition explorer_answers_transfers_only : env :=
  with_http
    (fun url =>
       if String.eqb url (AuditPipeline.tx_url sample_address sample_key)
       then Responds (Ok (JObj [("status", JStr "1"); ("message", JStr "OK");
                                ("result", JArr (drop 1 sample_transactions))]))
       else Responds (Ok sample_source_data))
    (with_key bare).

(** ** Vocabulary of the further properties *)

(** The check of [validate_contract_path]. *)
Definition valid_path (w : env) (path : string) : bool :=
  path_exists w path && PyStr.endswith ".sol" path.

(** The HTTP requests, the child processes and the reports among some
    events, in their order. *)
Definition requests (evs : list event) : list event := List.filter is_network evs.

Definition processes (evs : list event) : list event := List.filter is_subprocess evs.

Definition is_output (ev : event) : bool :=
  match ev with EvOutput _ _ => true | _ => false end.

Definition outputs (evs : list event) : list event := List.filter is_output evs.

(** What the probe of the analyzer in [run_audit] comes to. *)
Definition slither_probe : event := EvRun ["slither"; "--version"] true false true None.

Definition slither_run (path : string) : event :=
  EvRun ["slither"; path; "--json"] true true false (Some 300).

(** The exception a request ends with, whether sending it or reading
    its body as JSON failed. *)
Definition request_failure (w : env) (url : string) : option exn :=
  match http w url with
  | GetFails e => Some e
  | Responds (Err e) => Some e
  | Responds (Ok _) => None
  | Stalls => None
  end.

(** Does the fetch for [address] stop at a request that is never
    answered in full?  Only a fetch that sends requests can: the first
    request stalls, or it is answered with JSON and the second stalls. *)
Definition fetch_blocks (w : env) (address : option string) : bool :=
  negb (AuditPipeline.absent address)
  && negb (AuditPipeline.absent (getenv w "ETHERSCAN_API_KEY"))
  && requests_importable w
  && match http w (AuditPipeline.tx_url (default "" address)
                     (default "" (getenv w "ETHERSCAN_API_KEY"))) with
     | Stalls => true
     | Responds (Ok _) =>
         match http w (AuditPipeline.source_url (default "" address)
                         (default "" (getenv w "ETHERSCAN_API_KEY"))) with
         | Stalls => true
         | _ => false
         end
     | _ => false
     end.

(** What the version query of the analyzer comes to in [run_audit]. *)
Definition probe_outcome (w : env) : outcome bool :=
  match process w ["slither"; "--version"] with
  | Terminates _ rc _ _ => Ret (rc =? 0)
  | RunFails e =>
      match exn_cls e with
      | CalledProcessError | FileNotFoundError => Ret false
      | _ => Raise e
      end
  | RunsForever => Hang
  end.

(** The pipeline once the metadata block is stored, and once a result
    is recorded. *)
Definition with_metadata (self : AuditPipeline) (data : json) : AuditPipeline :=
  mkAuditPipeline (contract_path self) (audit_level self) (results self)
                  (<["etherscan_data" := data]> (metadata self)).

Definition with_result (self : AuditPipeline) (r : AuditResult) : AuditPipeline :=
  mkAuditPipeline (contract_path self) (audit_level self) (results self ++ [r])
                  (metadata self).

(** The full report of a pipeline, stamped. *)
Definition report_of (self : AuditPipeline) (timestamp : string) : Report :=
  FullReport (contract_path self) (level_value (audit_level self)) timestamp
             (AuditPipeline.summary <$> results self) (metadata self).

(** Writing the report out, as far as the exit of [main] goes. *)
Definition written (w : env) (args : Args) (code : Z) : outcome Z :=
  if AuditPipeline.absent (arg_output args) then Ret code
  else match open_write w (default "" (arg_output args)) with
       | Some e => Raise e
       | None => Ret code
       end.

(** The block of [main] under [# Output results]. *)
Definition write_out (args : Args) (report : Report) : M unit :=
  (if AuditPipeline.absent (arg_output args)
   then emit (EvOutput None report)
   else
     let file := default "" (arg_output args) in
     emit (EvOpen file) ;;
     refused <- ask (fun w => open_write w file) ;;
     match refused with
     | Some e => raise e
     | None =>
         emit (EvOutput (Some file) report) ;;
         Logger.success ("Audit report saved to " +:+ file)
     end)%M.

(** How [main] ends, read off the world: the exit code, an exception
    or no end at all. *)
Definition exit_outcome (w : env) (args : Args) : outcome Z :=
  if valid_path w (arg_contract args)
  then if fetch_blocks w (arg_address args) then Hang
       else match probe_outcome w with
            | Ret true =>
                written w args
                  (if passed (SlitherSpec.result_of w 0 (arg_contract args)) then 0 else 1)
            | Ret false => written w args 0
            | Raise e => Raise e
            | Hang => Hang
            end
  else written w args 0.

(** An issue the loop body raises on: not a dict, or with a severity
    that is not a string. *)
Definition malformed (issue : json) : bool :=
  match issue with
  | JObj kvs =>
      match assoc "severity" kvs with
      | Some (JStr _) | None => false
      | Some _ => true
      end
  | _ => true
  end.

(** What the parsed output of the analyzer reports: the list under
    [results] and then [detections], and nothing where either key is
    missing. *)
Inductive output_reports : json -> list json -> Prop :=
  | reports_no_results kvs :
      assoc "results" kvs = None -> output_reports (JObj kvs) []
  | reports_no_detections kvs inner :
      assoc "results" kvs = Some (JObj inner) -> assoc "detections" inner = None ->
      output_reports (JObj kvs) []
  | reports_detections kvs inner issues :
      assoc "results" kvs = Some (JObj inner) ->
      assoc "detections" inner = Some (JArr issues) ->
      output_reports (JObj kvs) issues.

(** An issue whose [severity] is a string that, in lower case, is
    [bucket]. *)
Definition names_bucket (bucket : string) (issue : json) : bool :=
  match issue with
  | JObj kvs =>
      match assoc "severity" kvs with
      | Some (JStr s) => String.eqb (PyStr.lower s) bucket
      | _ => false
      end
  | _ => false
  end.

(** How many of the reported issues belong in [bucket]: those that name
    it and, for "informational", those that name no severity at all. *)
Definition counted (bucket : string) (issues : list json) : nat :=
  (length (List.filter (names_bucket bucket) issues)
   + if String.eqb bucket "informational"
     then length (List.filter SlitherSpec.lacks_severity issues) else 0)%nat.

(** The text an exception is reported with in the [error] field. *)
Definition error_text (e : exn) : string :=
  (if is_RequestException (exn_cls e)
   then "Failed to fetch data: " else "Unexpected error: ") +:+ exn_msg e.

(** A credential is configured and the explorer declines the
    transaction listing (status "0") while answering the source lookup. *)
Definition declined_tx_data : json :=
  JObj [("status", JStr "0"); ("message", JStr "NOTOK");
        ("result", JStr "Max rate limit reached")].

Definition explorer_declines : env :=
  with_http
    (fun url =>
       if String.eqb url (AuditPipeline.tx_url sample_address sample_key)
       then Responds (Ok declined_tx_data)
       else Responds (Ok sample_source_data))
    (with_key bare).

(** The analyzer reports as above and no file can be opened for
    writing. *)
Definition read_only_disk : env :=
  Env (path_exists analyzer_reports) (getenv analyzer_reports) (process analyzer_reports)
      (requests_importable analyzer_reports) (http analyzer_reports) (clock analyzer_reports)
      (json_loads analyzer_reports) (int_of_str analyzer_reports)
      (fromtimestamp_isoformat analyzer_reports)
      (now_isoformat analyzer_reports)
      (fun file => Some (Exn PermissionError
                           ("[Errno 13] Permission denied: '" +:+ file +:+ "'"))).

(** A credential is configured, the listing is answered and the source
    lookup is never answered in full. *)
Definition explorer_stalls : env :=
  with_http
    (fun url =>
       if String.eqb url (AuditPipeline.tx_url sample_address sample_key)
       then Responds (Ok sample_tx_data)
       else Stalls)
    (with_files (fun path => String.eqb path "Token.sol") (with_key bare)).

(** A credential is configured and both requests are answered, the
    listing with status "0" and yet with two transfers as its result. *)
Definition unlisted_tx_data : json :=
  JObj [("status", JStr "0"); ("message", JStr "NOTOK");
        ("result", JArr
           [JObj [("from", JStr "0xc6cde7c39eb2f0f0095f41570af89efc2c1ea828");
                  ("to", JStr "0xdac17f958d2ee523a2206206994597c13d831ec7");
                  ("timeStamp", JStr "1511831234")];
            JObj [("from", JStr "0x36928500bc1dcd7af6a2b4008875cc336b927d57");
                  ("to", JStr "0xdac17f958d2ee523a2206206994597c13d831ec7");
                  ("timeStamp", JStr "1511831234")]])].

Definition explorer_lists_under_status_0 : env :=
  with_http
    (fun url =>
       if String.eqb url (AuditPipeline.tx_url sample_address sample_key)
       then Responds (Ok unlisted_tx_data)
       else Responds (Ok sample_source_data))
    (with_key bare).

(** A credential is configured and both requests are answered, the
    listing with a creation transaction whose time stamp is no number. *)
Definition undated_tx_data : json :=
  JObj [("status", JStr "1"); ("message", JStr "OK");
        ("result", JArr
           [JObj [("from", JStr "0x36928500bc1dcd7af6a2b4008875cc336b927d57");
                  ("to", JStr "");
                  ("timeStamp", JStr "soon")]])].

Definition explorer_lists_undated : env :=
  with_http
    (fun url =>
       if String.eqb url (AuditPipeline.tx_url sample_address sample_key)
       then Responds (Ok undated_tx_data)
       else Responds (Ok sample_source_data))
    (with_key bare).

(** * Proofs *)

(** ** Running the monad *)

Ltac step :=
  unfold Logger.info, Logger.error, Logger.success, Logger.log,
    bind, ret, raise, hang, emit, ask, now, lift, try_except in *;
  cbn [fst snd trace ticks] in *.

Lemma bind_ret {A B} (m : M A) (k : A -> M B) w st a st' :
  m w st = (Ret a, st') -> bind m k w st = k a w st'.
Proof. unfold bind. by intros ->. Qed.

Lemma log_run level message w st :
  Logger.log level message w st
  = (Ret tt, State (trace st ++ [EvLog level message]) (S (ticks st))).
Proof. reflexivity. Qed.

Section Run.

Import SlitherAnalyzer SlitherSpec.

Lemma run_spec w st path :
  exists st', run path w st = (Ret (result_of w (ticks st) path), st').
Proof.
  unfold run, result_of, slither_argv, subprocess_run. step.
  destruct (process w _) as [e|seconds rc out err|]; cbn.
  - eauto.
  - destruct (Qle_bool seconds (inject_Z 300)) eqn:Hin; cbn; [|eauto].
    destruct (rc =? 0) eqn:Hrc; cbn; [|eauto].
    unfold analyse.
    destruct (json_loads w out) as [parsed|e]; cbn; [|eauto].
    destruct (detections parsed) as [reported|e]; cbn; [|eauto].
    destruct (Py.iter reported) as [issues|e]; cbn; [|eauto].
    destruct (count_issues initial_count issues) as [sc|e]; cbn; [|eauto].
    destruct (verdict sc) as [ok|e]; cbn; eauto.
  - eauto.
Qed.

Lemma analyse_inv loads out sc reported ok :
  analyse loads out = Ok (sc, reported, ok) ->
  exists parsed issues,
    loads out = Ok parsed /\ detections parsed = Ok reported /\
    Py.iter reported = Ok issues /\
    count_issues initial_count issues = Ok sc /\ verdict sc = Ok ok.
Proof.
  unfold analyse. intros H.
  destruct (loads out) as [parsed|]; cbn in H; [|discriminate].
  destruct (detections parsed) as [rep|] eqn:Hd; cbn in H; [|discriminate].
  destruct (Py.iter rep) as [issues|] eqn:Hi; cbn in H; [|discriminate].
  destruct (count_issues initial_count issues) as [sc'|] eqn:Hc; cbn in H; [|discriminate].
  destruct (verdict sc') as [ok'|] eqn:Hv; cbn in H; [|discriminate].
  inversion H; subst. by exists parsed, issues.
Qed.

Lemma result_of_fails w n path :
  analyzer_fails w path -> result_of w n path = failed.
Proof.
  unfold result_of. intros [e H|H|s rc out err H Hin|s rc out err H Hrc
                           |s rc out err e H Hl|s rc out err e H Ha]; rewrite H; try done.
  - cbn in Hin. cbn. by rewrite Hin.
  - apply Z.eqb_neq in Hrc. rewrite Hrc. by rewrite andb_false_r.
  - unfold analyse. rewrite Hl. cbn. by destruct (_ && _).
  - rewrite Ha. by destruct (_ && _).
Qed.

Lemma result_of_succeeds w n path :
  ~ analyzer_fails w path ->
  exists seconds out err sc reported ok,
    process w (slither_argv path) = Terminates seconds 0 out err /\
    within (Some 300) seconds = true /\
    analyse (json_loads w) out = Ok (sc, reported, ok) /\
    result_of w n path =
      mkAuditResult "Slither" sc reported (clock w (S (S n)) - clock w (S n)) ok.
Proof.
  intros Hok. unfold result_of.
  destruct (process w (slither_argv path)) as [e|s rc out err|] eqn:Hp.
  - destruct Hok. by eapply fails_to_run.
  - destruct (within (Some 300) s) eqn:Hin;
      [|destruct Hok; by eapply times_out].
    destruct (Z.eqb_spec rc 0) as [->|Hrc];
      [|destruct Hok; by eapply exits_nonzero].
    destruct (analyse (json_loads w) out) as [[[sc reported] ok]|e] eqn:Ha;
      [|destruct Hok; by eapply output_misshapen].
    cbn. eauto 10.
  - destruct Hok. by eapply never_exits.
Qed.

(** *** The tally *)

Lemma count_issue_lookup sc issue sc' b :
  count_issue sc issue = Ok sc' ->
  sc' !! b = (fun n => n + (if has_severity b issue then 1 else 0))%nat <$> sc !! b.
Proof.
  unfold count_issue, has_severity, severity_of. intros H.
  destruct (Py.get issue "severity" _) as [raw|]; cbn in *; [|discriminate].
  destruct (Py.lower raw) as [severity|]; cbn in *; [|discriminate].
  destruct (String.eqb_spec severity b) as [->|Hne].
  - destruct (sc !! b) as [n|] eqn:Hb; inversion H; subst.
    + rewrite lookup_insert_eq. cbn. f_equal. lia.
    + by rewrite Hb.
  - assert (sc' !! b = sc !! b) as ->.
    { destruct (sc !! severity); inversion H; subst; [|done].
      by rewrite lookup_insert_ne. }
    destruct (sc !! b); cbn; [f_equal; lia|done].
Qed.

Lemma count_issues_lookup issues sc sc' b :
  count_issues sc issues = Ok sc' ->
  sc' !! b = (fun n => n + tally b issues)%nat <$> sc !! b.
Proof.
  revert sc. induction issues as [|issue rest IH]; intros sc H; cbn in H.
  - inversion H; subst. unfold tally. cbn.
    destruct (sc' !! b); cbn; [f_equal; lia|done].
  - destruct (count_issue sc issue) as [sc1|] eqn:H1; cbn in H; [|discriminate].
    rewrite (IH _ H), (count_issue_lookup _ _ _ b H1).
    unfold tally. cbn [List.filter].
    destruct (sc !! b); cbn; [|done].
    f_equal. destruct (has_severity b issue); cbn; lia.
Qed.

Lemma initial_count_bucket b :
  b ∈ buckets -> initial_count !! b = Some 0%nat.
Proof.
  unfold buckets. rewrite !elem_of_cons, elem_of_nil.
  intros [->|[->|[->|[->|[->|[]]]]]]; reflexivity.
Qed.

Lemma initial_count_other b :
  b ∉ buckets -> initial_count !! b = None.
Proof.
  unfold buckets. rewrite !not_elem_of_cons. intros (?&?&?&?&?&_).
  unfold initial_count. rewrite !lookup_insert_ne by done. apply lookup_empty.
Qed.

Lemma has_severity_functional b1 b2 issue :
  has_severity b1 issue = true -> has_severity b2 issue = true -> b1 = b2.
Proof.
  unfold has_severity. destruct (severity_of issue) as [s|]; [|discriminate].
  rewrite !String.eqb_eq. congruence.
Qed.

Lemma tally_sum issues :
  (sum_list ((fun b => tally b issues) <$> buckets) <= length issues)%nat.
Proof.
  unfold tally, buckets. induction issues as [|issue rest IH]; cbn; [lia|].
  cbn in IH.
  destruct (has_severity "critical" issue) eqn:H1,
           (has_severity "high" issue) eqn:H2,
           (has_severity "medium" issue) eqn:H3,
           (has_severity "low" issue) eqn:H4,
           (has_severity "informational" issue) eqn:H5;
    cbn; try lia; exfalso;
    match goal with
    | Ha : has_severity ?a _ = true, Hb : has_severity ?b _ = true |- _ =>
        lazymatch a with b => fail | _ => idtac end;
        pose proof (has_severity_functional _ _ _ Ha Hb); discriminate
    end.
Qed.

Lemma total_le_findings issues sc :
  count_issues initial_count issues = Ok sc ->
  (total sc <= length issues)%nat.
Proof.
  intros H. etransitivity; [|apply (tally_sum issues)].
  unfold total. apply Nat.eq_le_incl. f_equal.
  apply Forall_fmap_ext_1, Forall_forall. intros b Hb.
  rewrite lookup_total_alt, (count_issues_lookup _ _ _ b H).
  by rewrite (initial_count_bucket b Hb).
Qed.

Lemma verdict_iff sc ok c h :
  verdict sc = Ok ok ->
  sc !! "critical" = Some c -> sc !! "high" = Some h ->
  ok = true <-> c = 0%nat /\ h = 0%nat.
Proof.
  unfold verdict, count_at. intros H Hc Hh. rewrite Hc in H. cbn in H.
  destruct (Nat.eqb_spec c 0) as [->|Hne].
  - rewrite Hh in H. cbn in H. inversion H; subst.
    rewrite Nat.eqb_eq. tauto.
  - inversion H; subst. split; [discriminate|tauto].
Qed.

Lemma iter_len v l : Py.iter v = Ok l -> Py.len v = Ok (length l).
Proof.
  destruct v; cbn; intros H; inversion H; subst; try done.
  - f_equal. induction s as [|c s IH]; cbn; [done|].
    by rewrite IH.
  - by rewrite !length_fmap.
Qed.

Lemma lacks_severity_informational issue :
  lacks_severity issue = true -> has_severity "informational" issue = true.
Proof.
  unfold lacks_severity, has_severity, severity_of.
  destruct issue as [| | | | | | |l|kvs]; try discriminate.
  cbn. by destruct (assoc "severity" kvs).
Qed.

Lemma count_issue_missing_severity sc issue n :
  lacks_severity issue = true -> sc !! "informational" = Some n ->
  count_issue sc issue = Ok (<["informational" := S n]> sc).
Proof.
  unfold lacks_severity, count_issue.
  destruct issue as [| | | | | | |l|kvs]; try discriminate.
  cbn -[PyStr.lower]. destruct (assoc "severity" kvs); [discriminate|].
  intros _ Hn. cbn -[PyStr.lower].
  change (PyStr.lower "informational") with "informational".
  by rewrite Hn.
Qed.

Lemma filter_length_le (f g : json -> bool) l :
  (forall x, f x = true -> g x = true) ->
  (length (List.filter f l) <= length (List.filter g l))%nat.
Proof.
  intros Hfg. induction l as [|x l IH]; cbn; [lia|].
  destruct (f x) eqn:Hf.
  - rewrite (Hfg _ Hf). cbn. lia.
  - destruct (g x); cbn; lia.
Qed.

Lemma run_failure w st path :
  analyzer_fails w path -> exists st', run path w st = (Ret failed, st').
Proof.
  intros H. destruct (run_spec w st path) as [st' Hrun].
  rewrite (result_of_fails _ _ _ H) in Hrun. eauto.
Qed.

Lemma run_success w st path :
  ~ analyzer_fails w path ->
  exists st' seconds out err parsed issues sc reported ok,
    run path w st =
      (Ret (mkAuditResult "Slither" sc reported
              (clock w (S (S (ticks st))) - clock w (S (ticks st))) ok), st') /\
    process w (slither_argv path) = Terminates seconds 0 out err /\
    json_loads w out = Ok parsed /\ detections parsed = Ok reported /\
    Py.iter reported = Ok issues /\
    count_issues initial_count issues = Ok sc /\ verdict sc = Ok ok.
Proof.
  intros H. destruct (run_spec w st path) as [st' Hrun].
  destruct (result_of_succeeds w (ticks st) path H)
    as (seconds & out & err & sc & reported & ok & Hp & _ & Ha & Hr).
  destruct (analyse_inv _ _ _ _ _ Ha) as (parsed & issues & ? & ? & ? & ? & ?).
  rewrite Hr in Hrun. by exists st', seconds, out, err, parsed, issues, sc, reported, ok.
Qed.

Lemma analyzer_crashes_fails : analyzer_fails analyzer_crashes "Token.sol".
Proof. eapply exits_nonzero; [reflexivity|discriminate]. Defined.

Lemma analyzer_reports_succeeds : ~ analyzer_fails analyzer_reports "Token.sol".
Proof.
  intros [e H|H|s rc out err H Hin|s rc out err H Hrc
         |s rc out err e H Hl|s rc out err e H Ha];
    vm_compute in H; try discriminate; inversion H; subst.
  - vm_compute in Hin. discriminate.
  - by apply Hrc.
  - vm_compute in Hl. discriminate.
  - vm_compute in Ha. discriminate.
Defined.

Lemma verdict_defined issues sc :
  count_issues initial_count issues = Ok sc -> exists ok, verdict sc = Ok ok.
Proof.
  intros Hc. unfold verdict, count_at.
  rewrite !(count_issues_lookup _ _ _ _ Hc).
  rewrite !initial_count_bucket by (unfold buckets; repeat constructor).
  cbn. destruct (_ =? _)%nat; by eexists.
Qed.

Lemma count_issue_defined sc issue :
  malformed issue = false -> exists sc', count_issue sc issue = Ok sc'.
Proof.
  unfold malformed, count_issue.
  destruct issue as [| | | | | | |l|kvs]; try discriminate.
  cbn -[PyStr.lower]. destruct (assoc "severity" kvs) as [[| | | | | |s| |]|];
    try discriminate; intros _; cbn -[PyStr.lower]; destruct (sc !! _); by eexists.
Qed.

Lemma count_issues_defined sc issues :
  Forall (fun issue => malformed issue = false) issues ->
  exists sc', count_issues sc issues = Ok sc'.
Proof.
  revert sc. induction issues as [|issue rest IH]; intros sc H; [by eexists|].
  inversion H as [|? ? Hm Hrest]; subst. cbn.
  destruct (count_issue_defined sc issue Hm) as [sc' ->]. cbn. by apply IH.
Qed.

Lemma run_on_success w st path seconds out err parsed reported issues sc :
  process w (slither_argv path) = Terminates seconds 0 out err ->
  within (Some 300) seconds = true ->
  json_loads w out = Ok parsed ->
  detections parsed = Ok reported ->
  Py.iter reported = Ok issues ->
  count_issues initial_count issues = Ok sc ->
  exists ok st',
    verdict sc = Ok ok /\
    run path w st
    = (Ret (mkAuditResult "Slither" sc reported
              (clock w (S (S (ticks st))) - clock w (S (ticks st))) ok), st').
Proof.
  intros Hp Hin Hl Hd Hi Hc. destruct (verdict_defined _ _ Hc) as [ok Hv].
  destruct (run_spec w st path) as [st' Hrun]. exists ok, st'. split; [exact Hv|].
  rewrite Hrun. unfold result_of, analyse. rewrite Hp, Hin, Hl. cbn -[detections].
  rewrite Hd. cbn. rewrite Hi. cbn. rewrite Hc. cbn. by rewrite Hv.
Qed.

(** *** What the output reports, read off the parsed text *)

Lemma output_reports_detections parsed issues :
  output_reports parsed issues -> detections parsed = Ok (JArr issues).
Proof.
  unfold detections. intros [kvs H|kvs inner H H'|kvs inner l H H']; cbn; rewrite H; cbn;
    [done|by rewrite H'..].
Qed.

Lemma has_severity_raw b issue :
  has_severity b issue
  = names_bucket b issue || (lacks_severity issue && String.eqb b "informational").
Proof.
  unfold has_severity, severity_of, names_bucket, lacks_severity.
  destruct issue as [| | | | | | |l|kvs]; try done.
  cbn -[PyStr.lower]. destruct (assoc "severity" kvs) as [[| | | | | |s| |]|];
    cbn -[PyStr.lower]; try done.
  - by rewrite orb_false_r.
  - change (PyStr.lower "informational") with "informational". apply String.eqb_sym.
Qed.

Lemma names_or_lacks b issue :
  names_bucket b issue = true -> lacks_severity issue = false.
Proof.
  unfold names_bucket, lacks_severity. destruct issue as [| | | | | | |l|kvs]; try done.
  by destruct (assoc "severity" kvs).
Qed.

Lemma tally_counted b issues : tally b issues = counted b issues.
Proof.
  unfold tally, counted. induction issues as [|issue rest IH]; cbn.
  - by destruct (String.eqb b "informational").
  - rewrite has_severity_raw.
    destruct (names_bucket b issue) eqn:Hn; cbn.
    + rewrite (names_or_lacks _ _ Hn), IH. by destruct (String.eqb b "informational").
    + destruct (lacks_severity issue), (String.eqb b "informational"); cbn; rewrite IH; lia.
Qed.

End Run.

(** ** The utility functions *)

Lemma check_tool_installed_probe w st binary :
  (v <- (subprocess_run [binary; "--version"] true false true None ;; ret tt) ;; ret true) w st
  = (match process w [binary; "--version"] with
     | Terminates _ rc _ _ =>
         if rc =? 0 then Ret true
         else Raise (Exn CalledProcessError
                ("Command '" +:+ repr_argv [binary; "--version"]
                 +:+ "' returned non-zero exit status " +:+ pretty rc +:+ "."))
     | RunFails e => Raise e
     | RunsForever => Hang
     end,
     State (trace st ++ [EvRun [binary; "--version"] true false true None]) (ticks st)).
Proof.
  unfold subprocess_run. step.
  destruct (process w _) as [e|seconds rc out err|]; cbn; try done.
  by destruct (rc =? 0).
Qed.

Lemma validate_contract_path_rejects w st path :
  path_exists w path = false \/ PyStr.endswith ".sol" path = false ->
  exists message,
    validate_contract_path path w st
    = (Ret false,
       State (trace st ++ [EvPathExists path; EvLog ERROR message]) (S (ticks st))).
Proof.
  intros H. unfold validate_contract_path. step.
  destruct (path_exists w path) eqn:Hp; cbn.
  - destruct H as [H|H]; [discriminate|]. rewrite H. cbn.
    rewrite <- app_assoc. eauto.
  - rewrite <- app_assoc. eauto.
Qed.

(** ** Masking with [replace] *)

Section Masking.

Import PyStr.

Variable old : string.
Hypothesis old_nonempty : old <> "".
Hypothesis old_plain : avoids "*" old = true.

Lemma replace_from_skip new k s :
  replace_from old new k s = replace_from old new 0 (drop k s).
Proof.
  revert k. induction s as [|c s IH]; intros [|k]; cbn [replace_from drop]; auto.
Qed.

Lemma drop_length k s : (String.length (drop k s) <= String.length s)%nat.
Proof.
  revert k. induction s as [|c s IH]; intros [|k]; cbn; try lia.
  specialize (IH k). lia.
Qed.

Lemma mask_app s : "***" +:+ s = String "*" (String "*" (String "*" s)).
Proof. reflexivity. Qed.

Lemma startswith_star_plain s : startswith old (String "*" s) = false.
Proof.
  destruct old as [|a rest]; [done|]. cbn in old_plain. cbn.
  destruct (Ascii.eqb a "*"); [discriminate|done].
Qed.

(** A prefix without asterisk of the masked text is a prefix of the
    original text. *)
Lemma startswith_masked p s :
  avoids "*" p = true ->
  startswith p (replace old "***" s) = true -> startswith p s = true.
Proof.
  unfold replace. revert p. induction s as [|c s IH]; intros p Hp; [done|].
  cbn [replace_from]. destruct (startswith old (String c s)).
  - rewrite mask_app. destruct p as [|a p]; [done|]. cbn in Hp. cbn.
    destruct (Ascii.eqb a "*"); [discriminate|done].
  - destruct p as [|a p]; [done|]. cbn in Hp. cbn.
    destruct (Ascii.eqb a c); [|done].
    apply IH. by destruct (Ascii.eqb a "*").
Qed.

(** The text to be masked does not occur in the masked text. *)
Lemma replace_masks s : contains old (replace old "***" s) = false.
Proof.
  remember (String.length s) as n eqn:Hn.
  assert (String.length s <= n)%nat as Hle by lia. clear Hn.
  revert s Hle. induction n as [|n IH]; intros s Hle.
  - destruct s; [|cbn in Hle; lia]. cbn.
    destruct old; [done|]. reflexivity.
  - destruct s as [|c s].
    { cbn. destruct old; [done|]. reflexivity. }
    cbn in Hle. unfold replace. cbn [replace_from].
    destruct (startswith old (String c s)) eqn:Hsw.
    + rewrite replace_from_skip, mask_app. cbn [contains].
      rewrite !startswith_star_plain. cbn [orb].
      apply IH. pose proof (drop_length (String.length old - 1) s). lia.
    + cbn [contains].
      pose proof (IH s ltac:(lia)) as Hs. unfold replace in Hs.
      rewrite Hs, orb_false_r.
      destruct (startswith old (String c (replace_from old "***" 0 s))) eqn:Hm; [|done].
      rewrite <- Hsw. symmetry. apply startswith_masked; [exact old_plain|].
      unfold replace. cbn [replace_from]. by rewrite Hsw.
Qed.

End Masking.

(** ** The metadata fetcher *)

Section Fetch.

Import AuditPipeline.

Lemma find_creation_none int_of iso txs r :
  Forall (fun tx => has_empty_to tx = false) txs ->
  find_creation int_of iso txs = Ok r -> r = None.
Proof.
  induction 1 as [|tx rest Hto _ IH]; cbn; [congruence|].
  unfold has_empty_to in Hto.
  destruct (Py.get tx "to" JNull) as [to|]; cbn; [|discriminate].
  rewrite Hto. exact IH.
Qed.

Lemma find_creation_first w iso pre tx post r :
  Forall (fun t => has_empty_to t = false) pre ->
  has_empty_to tx = true ->
  find_creation (int_of_str w) iso (pre ++ tx :: post) = Ok r ->
  exists deployer timestamp date,
    Py.get tx "from" (JStr "Unknown") = Ok deployer /\
    timestamp_of w tx = Ok timestamp /\
    iso timestamp = Ok date /\
    r = Some (deployer, date).
Proof.
  intros Hpre Htx. induction Hpre as [|t rest Hto _ IH]; cbn.
  - unfold has_empty_to in Htx. unfold timestamp_of.
    destruct (Py.get tx "to" JNull) as [to|]; cbn; [|discriminate].
    rewrite Htx.
    destruct (Py.get tx "from" _) as [deployer|]; cbn; [|discriminate].
    destruct (Py.get tx "timeStamp" _) as [raw|]; cbn; [|discriminate].
    destruct (Py.int (int_of_str w) raw) as [timestamp|]; cbn; [|discriminate].
    destruct (iso timestamp) as [date|] eqn:Hiso; cbn; [|discriminate].
    intros [= <-]. by exists deployer, timestamp, date.
  - unfold has_empty_to in Hto.
    destruct (Py.get t "to" JNull) as [to|]; cbn; [|discriminate].
    rewrite Hto. exact IH.
Qed.

Lemma get_getitem v k x default :
  Py.get v k default = Ok x -> x <> default -> Py.getitem v k = Ok x.
Proof.
  destruct v; cbn; try discriminate.
  destruct (assoc k kvs); cbn; congruence.
Qed.

Lemma parse_transactions_list int_of iso tx_data status txs n deployer date :
  Py.get tx_data "status" JNull = Ok status ->
  Py.get tx_data "result" JNull = Ok (JArr txs) ->
  Py.eq_str status "1" = true \/ txs = [] ->
  parse_transactions int_of iso tx_data = Ok (n, deployer, date) ->
  exists creation,
    find_creation int_of iso txs = Ok creation /\
    n = length txs /\
    (deployer, date) = default (JStr "Unknown", "Unknown") creation.
Proof.
  intros Hs Hr Hcase. unfold parse_transactions. rewrite Hs, Hr. cbn.
  destruct txs as [|tx rest].
  - destruct (Py.eq_str status "1"); cbn; intros [= <- <- <-]; by exists None.
  - destruct Hcase as [->|]; [|discriminate]. cbn.
    rewrite (get_getitem _ _ _ _ Hr) by discriminate. cbn.
    destruct (find_creation int_of iso (tx :: rest)) as [[[d c]|]|] eqn:Hf;
      cbn in *; rewrite Hf; cbn; [| |discriminate];
      intros [= <- <- <-]; eauto.
Qed.

Lemma fetch_success w st address key tx_data source_data r st' :
  absent (Some address) = false ->
  getenv w "ETHERSCAN_API_KEY" = Some key ->
  absent (Some key) = false ->
  requests_importable w = true ->
  http w (tx_url address key) = Responds (Ok tx_data) ->
  http w (source_url address key) = Responds (Ok source_data) ->
  fetch_etherscan_data (Some address) w st = (Ret r, st') ->
  field "error" r = None ->
  exists n deployer date status,
    parse_transactions (int_of_str w) (fromtimestamp_isoformat w) tx_data
    = Ok (n, deployer, date) /\
    parse_verification source_data = Ok status /\
    r = JObj
          [("contract_address", JStr address);
           ("verification_status", JStr status);
           ("transaction_count", JInt (Z.of_nat n));
           ("deployer_address", deployer);
           ("creation_date", JStr date);
           ("api_endpoint", JStr (PyStr.replace key "***" (tx_url address key)))].
Proof.
  intros Haddr Hkey Hkey' Himp Htx Hsrc.
  unfold fetch_etherscan_data, get_json. rewrite Haddr. step.
  rewrite Hkey, Hkey', Himp. cbn. rewrite Htx, Hsrc. cbn.
  destruct (parse_transactions _ _ tx_data) as [[[n deployer] date]|e]; cbn.
  - destruct (parse_verification source_data) as [status|e]; cbn.
    + intros [= <- <-] _. by exists n, deployer, date, status.
    + destruct (is_RequestException _); cbn; intros [= <- <-]; discriminate.
  - destruct (is_RequestException _); cbn; intros [= <- <-]; discriminate.
Qed.

(** X13.  Whatever the explorer answers, an [api_endpoint] in the
    returned dict does not show a credential that has no asterisk in it. *)
Lemma endpoint_never_shows_credential w st address key r st' url :
  getenv w "ETHERSCAN_API_KEY" = Some key ->
  avoids "*" key = true ->
  fetch_etherscan_data address w st = (Ret r, st') ->
  field "api_endpoint" r = Some (JStr url) ->
  PyStr.contains key url = false.
Proof.
  intros Hkey Hplain. unfold fetch_etherscan_data, get_json.
  destruct (absent address); [intros [= <- <-]; discriminate|].
  step. rewrite Hkey. cbn.
  destruct (String.eqb_spec key "") as [->|Hne]; cbn; [intros [= <- <-]; discriminate|].
  destruct (requests_importable w); cbn; [|intros [= <- <-]; discriminate].
  repeat match goal with
         | |- context [match http w ?u with _ => _ end] => destruct (http w u) as [?|[?|?]|]; cbn
         | |- context [match parse_transactions ?c ?i ?d with _ => _ end] =>
             destruct (parse_transactions c i d) as [[[? ?] ?]|?]; cbn
         | |- context [match parse_verification ?d with _ => _ end] =>
             destruct (parse_verification d); cbn
         | |- context [if is_RequestException ?c then _ else _] =>
             destruct (is_RequestException c); cbn
         end;
    intros [= <- <-]; try discriminate.
  cbn. intros [= <-]. by apply replace_masks.
Qed.

End Fetch.

(** * The claims *)

Section Claims.

Import SlitherAnalyzer SlitherSpec.

(** C1 (as amended).  [SlitherAnalyzer.run] always returns a result.
    When the analysis fails, the result has an empty [severity_count]
    and [passed] is false; otherwise [severity_count] has a critical and
    a high counter and [passed] is true exactly when both are zero. *)
Theorem verdict_by_path w st path :
  exists r st',
    run path w st = (Ret r, st') /\
    (analyzer_fails w path -> severity_count r = ∅ /\ passed r = false) /\
    (~ analyzer_fails w path ->
     exists c h,
       severity_count r !! "critical" = Some c /\
       severity_count r !! "high" = Some h /\
       (passed r = true <-> c = 0%nat /\ h = 0%nat)).
Proof.
  destruct (run_spec w st path) as [st' Hrun].
  exists (result_of w (ticks st) path), st'. split; [done|]. split.
  - intros H. by rewrite (result_of_fails _ _ _ H).
  - intros H.
    destruct (result_of_succeeds w (ticks st) path H)
      as (seconds & out & err & sc & reported & ok & _ & _ & Ha & ->).
    destruct (analyse_inv _ _ _ _ _ Ha) as (parsed & issues & _ & _ & _ & Hc & Hv).
    exists (tally "critical" issues), (tally "high" issues). cbn.
    assert (sc !! "critical" = Some (tally "critical" issues)) as Hcrit.
    { rewrite (count_issues_lookup _ _ _ _ Hc), initial_count_bucket; [done|].
      unfold buckets. repeat constructor. }
    assert (sc !! "high" = Some (tally "high" issues)) as Hhigh.
    { rewrite (count_issues_lookup _ _ _ _ Hc), initial_count_bucket; [done|].
      unfold buckets. repeat constructor. }
    split; [done|]. split; [done|]. by apply (verdict_iff sc).
Qed.

Lemma verdict_by_path_witness :
  analyzer_fails analyzer_crashes "Token.sol" /\
  ~ analyzer_fails analyzer_reports "Token.sol" /\
  (exists r st',
     run "Token.sol" analyzer_crashes start = (Ret r, st') /\
     severity_count r = ∅ /\ passed r = false) /\
  (exists r st' c h,
     run "Token.sol" analyzer_reports start = (Ret r, st') /\
     severity_count r !! "critical" = Some c /\
     severity_count r !! "high" = Some h /\
     (passed r = true <-> c = 0%nat /\ h = 0%nat)).
Proof.
  split; [exact analyzer_crashes_fails|].
  split; [exact analyzer_reports_succeeds|]. split.
  - destruct (verdict_by_path analyzer_crashes start "Token.sol")
      as (r & st' & Hrun & Hfail & _).
    exists r, st'. split; [exact Hrun|]. exact (Hfail analyzer_crashes_fails).
  - destruct (verdict_by_path analyzer_reports start "Token.sol")
      as (r & st' & Hrun & _ & Hok).
    destruct (Hok analyzer_reports_succeeds) as (c & h & Hc & Hh & Hiff).
    exists r, st', c, h. exact (conj Hrun (conj Hc (conj Hh Hiff))).
Defined.

(** C1, the claim as stated, fails on the failure paths: when the
    analyzer exits with status 1 the result counts no critical and no
    high finding (its [severity_count] is empty, so the source's own
    expression [severity_count["critical"] == 0 and ...] raises
    KeyError on it), and yet [passed] is false. *)
Lemma failed_result_breaks_invariant :
  exists r st',
    run "Token.sol" analyzer_crashes start = (Ret r, st') /\
    severity_count r !!! "critical" = 0%nat /\
    severity_count r !!! "high" = 0%nat /\
    verdict (severity_count r) = Err (Exn KeyError "'critical'") /\
    ~ (passed r = true <->
       severity_count r !!! "critical" = 0%nat /\ severity_count r !!! "high" = 0%nat).
Proof.
  eexists _, _. split; [vm_compute; reflexivity|].
  repeat split; try reflexivity.
  cbn. intros [_ H]. specialize (H (conj eq_refl eq_refl)). discriminate.
Qed.

(** C3.  [SlitherAnalyzer.run] returns a result in every world: it
    neither raises nor blocks.  When the analyzer cannot be run, runs
    past the timeout, exits with a non-zero status, prints text that is
    not JSON, or an exception is raised while its output is walked, the
    result has no severity counts, no findings, execution time zero and
    [passed] false. *)
Theorem failures_degrade w st path :
  (exists r st', run path w st = (Ret r, st')) /\
  (analyzer_fails w path ->
   exists r st',
     run path w st = (Ret r, st') /\
     tool_name r = "Slither" /\ severity_count r = ∅ /\ findings r = JArr [] /\
     execution_time r = 0 /\ passed r = false).
Proof.
  split.
  - destruct (run_spec w st path) as [st' H]. eauto.
  - intros H. destruct (run_failure w st path H) as [st' Hrun].
    exists failed, st'. by rewrite Hrun.
Qed.

Lemma failures_degrade_witness :
  analyzer_fails analyzer_crashes "Token.sol" /\
  exists r st',
    run "Token.sol" analyzer_crashes start = (Ret r, st') /\
    tool_name r = "Slither" /\ severity_count r = ∅ /\ findings r = JArr [] /\
    execution_time r = 0 /\ passed r = false.
Proof.
  split; [exact analyzer_crashes_fails|].
  exact (proj2 (failures_degrade analyzer_crashes start "Token.sol")
               analyzer_crashes_fails).
Defined.

(** C7.  Take an analyzer that exits with status zero in time and whose
    output parses to JSON reporting the list [issues], each of them a
    dict whose severity, if any, is a string.  Then the findings of the
    result are exactly [issues], all of them; each of the five buckets
    counts the issues whose severity in lower case is the bucket's name
    (for "informational" also those without a severity); a severity
    outside the buckets is counted nowhere; and so the five counters sum
    to at most the number of findings. *)
Theorem counted_by_bucket_all_retained w st path seconds out err parsed issues :
  process w (slither_argv path) = Terminates seconds 0 out err ->
  within (Some 300) seconds = true ->
  json_loads w out = Ok parsed ->
  output_reports parsed issues ->
  Forall (fun issue => malformed issue = false) issues ->
  exists r st',
    run path w st = (Ret r, st') /\
    findings r = JArr issues /\
    Py.len (findings r) = Ok (length issues) /\
    (forall b, b ∈ buckets -> severity_count r !! b = Some (counted b issues)) /\
    (forall b, b ∉ buckets -> severity_count r !! b = None) /\
    (total (severity_count r) <= length issues)%nat.
Proof.
  intros Hp Hin Hl Hrep Hwf.
  destruct (count_issues_defined initial_count issues Hwf) as [sc Hc].
  destruct (run_on_success w st path seconds out err parsed (JArr issues) issues sc
              Hp Hin Hl (output_reports_detections _ _ Hrep) eq_refl Hc)
    as (ok & st' & _ & Hrun).
  eexists _, st'. split; [exact Hrun|]. cbn [findings severity_count].
  split; [done|]. split; [done|]. split; [|split].
  - intros b Hb.
    by rewrite (count_issues_lookup _ _ _ _ Hc), initial_count_bucket, tally_counted.
  - intros b Hb.
    by rewrite (count_issues_lookup _ _ _ _ Hc), initial_count_other.
  - by apply total_le_findings.
Qed.

Lemma counted_by_bucket_all_retained_witness :
  exists r st',
    run "Token.sol" analyzer_reports start = (Ret r, st') /\
    findings r = JArr [JObj [("severity", JStr "High")];
                       JObj [("severity", JStr "Informational")];
                       JObj [("check", JStr "x")];
                       JObj [("severity", JStr "Optimization")]] /\
    severity_count r !! "critical" = Some 0%nat /\
    severity_count r !! "high" = Some 1%nat /\
    severity_count r !! "medium" = Some 0%nat /\
    severity_count r !! "low" = Some 0%nat /\
    severity_count r !! "informational" = Some 2%nat /\
    severity_count r !! "optimization" = None /\
    (total (severity_count r) <= 4)%nat.
Proof.
  assert (output_reports report_json
            [JObj [("severity", JStr "High")];
             JObj [("severity", JStr "Informational")];
             JObj [("check", JStr "x")];
             JObj [("severity", JStr "Optimization")]]) as Hrep
    by (eapply reports_detections; reflexivity).
  assert (Forall (fun issue => malformed issue = false)
            [JObj [("severity", JStr "High")];
             JObj [("severity", JStr "Informational")];
             JObj [("check", JStr "x")];
             JObj [("severity", JStr "Optimization")]]) as Hwf
    by (repeat constructor).
  destruct (counted_by_bucket_all_retained analyzer_reports start "Token.sol" 2
              report_text "" report_json _ eq_refl eq_refl eq_refl Hrep Hwf)
    as (r & st' & Hrun & Hfind & _ & Hin & Hout & Htotal).
  exists r, st'. split; [exact Hrun|]. split; [exact Hfind|].
  split; [exact (Hin "critical" ltac:(unfold buckets; repeat constructor))|].
  split; [exact (Hin "high" ltac:(unfold buckets; repeat constructor))|].
  split; [exact (Hin "medium" ltac:(unfold buckets; repeat constructor))|].
  split; [exact (Hin "low" ltac:(unfold buckets; repeat constructor))|].
  split; [exact (Hin "informational" ltac:(unfold buckets; repeat constructor))|].
  split; [|exact Htotal].
  apply Hout. unfold buckets. rewrite !not_elem_of_cons.
  repeat split; try discriminate. apply not_elem_of_nil.
Defined.

(** C10.  Under the same conditions, an issue that is a dict without a
    [severity] key is tallied as informational and nowhere else: the
    informational counter is the number of issues that name that bucket
    plus the number of issues without a severity, and every other bucket
    counts only the issues that name it. *)
Theorem missing_severity_is_informational w st path seconds out err parsed issues :
  process w (slither_argv path) = Terminates seconds 0 out err ->
  within (Some 300) seconds = true ->
  json_loads w out = Ok parsed ->
  output_reports parsed issues ->
  Forall (fun issue => malformed issue = false) issues ->
  exists r st',
    run path w st = (Ret r, st') /\
    findings r = JArr issues /\
    severity_count r !! "informational"
    = Some (length (List.filter (names_bucket "informational") issues)
            + length (List.filter lacks_severity issues))%nat /\
    (forall b, b ∈ buckets -> b <> "informational" ->
               severity_count r !! b = Some (length (List.filter (names_bucket b) issues))).
Proof.
  intros Hp Hin Hl Hrep Hwf.
  destruct (count_issues_defined initial_count issues Hwf) as [sc Hc].
  destruct (run_on_success w st path seconds out err parsed (JArr issues) issues sc
              Hp Hin Hl (output_reports_detections _ _ Hrep) eq_refl Hc)
    as (ok & st' & _ & Hrun).
  eexists _, st'. split; [exact Hrun|]. cbn [findings severity_count].
  split; [done|]. split.
  - rewrite (count_issues_lookup _ _ _ _ Hc), initial_count_bucket, tally_counted;
      [done|unfold buckets; repeat constructor].
  - intros b Hb Hne.
    rewrite (count_issues_lookup _ _ _ _ Hc), initial_count_bucket, tally_counted by done.
    unfold counted. apply String.eqb_neq in Hne. rewrite Hne. cbn. f_equal. lia.
Qed.

Lemma missing_severity_is_informational_witness :
  lacks_severity (JObj [("check", JStr "x")]) = true /\
  exists r st',
    run "Token.sol" analyzer_reports start = (Ret r, st') /\
    findings r = JArr [JObj [("severity", JStr "High")];
                       JObj [("severity", JStr "Informational")];
                       JObj [("check", JStr "x")];
                       JObj [("severity", JStr "Optimization")]] /\
    severity_count r !! "informational" = Some (1 + 1)%nat /\
    severity_count r !! "high" = Some 1%nat.
Proof.
  split; [reflexivity|].
  assert (output_reports report_json
            [JObj [("severity", JStr "High")];
             JObj [("severity", JStr "Informational")];
             JObj [("check", JStr "x")];
             JObj [("severity", JStr "Optimization")]]) as Hrep
    by (eapply reports_detections; reflexivity).
  assert (Forall (fun issue => malformed issue = false)
            [JObj [("severity", JStr "High")];
             JObj [("severity", JStr "Informational")];
             JObj [("check", JStr "x")];
             JObj [("severity", JStr "Optimization")]]) as Hwf
    by (repeat constructor).
  destruct (missing_severity_is_informational analyzer_reports start "Token.sol" 2
              report_text "" report_json _ eq_refl eq_refl eq_refl Hrep Hwf)
    as (r & st' & Hrun & Hfind & Hinfo & Hother).
  exists r, st'. split; [exact Hrun|]. split; [exact Hfind|]. split; [exact Hinfo|].
  apply (Hother "high"); [unfold buckets; repeat constructor|discriminate].
Defined.

(** C8 (as amended).  For each of the four tool names it has a branch
    for, [check_tool_installed] starts the tool's executable with
    [--version], output captured, [check=True] and no timeout, and
    nothing else.  It returns true when the process exits with status
    zero, false when it exits with another status or the call raises
    CalledProcessError or FileNotFoundError; any other exception of the
    call reaches the caller, and a process that never exits blocks it. *)
Theorem check_tool_installed_spec tool binary w st :
  (tool, binary) ∈ probes ->
  check_tool_installed tool w st
  = (match process w [binary; "--version"] with
     | Terminates _ rc _ _ => Ret (rc =? 0)
     | RunFails e =>
         match exn_cls e with
         | CalledProcessError | FileNotFoundError => Ret false
         | _ => Raise e
         end
     | RunsForever => Hang
     end,
     State (trace st ++ [EvRun [binary; "--version"] true false true None]) (ticks st)).
Proof.
  unfold probes. rewrite !elem_of_cons, elem_of_nil.
  intros [H|[H|[H|[H|[]]]]]; inversion H; subst; clear H;
    unfold check_tool_installed, try_except; cbn [String.eqb Ascii.eqb Bool.eqb];
    rewrite check_tool_installed_probe;
    (destruct (process w _) as [e|seconds rc out err|]; [|destruct (rc =? 0)|]; try done;
     by destruct (exn_cls e)).
Qed.

Lemma check_tool_installed_spec_witness :
  ("slither", "slither") ∈ probes /\
  check_tool_installed "slither" analyzer_reports start
  = (Ret true, State [EvRun ["slither"; "--version"] true false true None] 0).
Proof.
  assert (("slither", "slither") ∈ probes) as H by (unfold probes; constructor).
  split; [exact H|].
  exact (check_tool_installed_spec "slither" "slither" analyzer_reports start H).
Defined.

(** C8, the claim as stated, fails: the probe is started without a
    timeout, and an invocation error other than the two the function
    catches (here: the executable may not be executed) is raised to
    the caller instead of being turned into false. *)
Lemma probe_error_reaches_caller :
  check_tool_installed "slither" analyzer_not_executable start
  = (Raise (Exn PermissionError "[Errno 13] Permission denied: 'slither'"),
     State [EvRun ["slither"; "--version"] true false true None] 0)
  /\ check_tool_installed "slither" analyzer_not_executable start
     <> (Ret false, State [EvRun ["slither"; "--version"] true false true None] 0).
Proof. split; [reflexivity|discriminate]. Qed.

(** C4.  When the contract path does not exist or does not end in
    [.sol], [run_audit] returns the error report and leaves the
    pipeline as it was (no metadata fetched, no result recorded); what
    it did is only logging and the existence check: no process was
    started, no request sent, the credential was not read. *)
Theorem invalid_path_stops_run w st self :
  path_exists w (contract_path self) = false
  \/ PyStr.endswith ".sol" (contract_path self) = false ->
  exists st' evs,
    AuditPipeline.run_audit self w st
    = (Ret (ErrorReport "Invalid contract path", self), st') /\
    trace st' = (trace st ++ evs)%list /\
    Forall (fun ev => is_local ev = true) evs /\
    Forall (fun ev => is_subprocess ev = false /\ is_network ev = false) evs.
Proof.
  intros H. unfold AuditPipeline.run_audit, Logger.info.
  erewrite bind_ret by apply log_run.
  edestruct validate_contract_path_rejects as [message Hv]; [exact H|].
  erewrite bind_ret by apply Hv.
  cbn. eexists _, _. split; [reflexivity|]. cbn. rewrite <- app_assoc.
  split; [reflexivity|]. split; repeat constructor.
Qed.

Lemma invalid_path_stops_run_witness :
  (path_exists bare "Token.sol" = false
   \/ PyStr.endswith ".sol" "Token.sol" = false) /\
  exists st' evs,
    AuditPipeline.run_audit (mkAuditPipeline "Token.sol" QUICK [] ∅) bare start
    = (Ret (ErrorReport "Invalid contract path", mkAuditPipeline "Token.sol" QUICK [] ∅),
       st') /\
    trace st' = (trace start ++ evs)%list /\
    Forall (fun ev => is_local ev = true) evs /\
    Forall (fun ev => is_subprocess ev = false /\ is_network ev = false) evs.
Proof.
  assert (path_exists bare "Token.sol" = false
          \/ PyStr.endswith ".sol" "Token.sol" = false) as H by (left; reflexivity).
  split; [exact H|].
  exact (invalid_path_stops_run bare start (mkAuditPipeline "Token.sol" QUICK [] ∅) H).
Defined.

(** C5.  Whenever [main] reaches [sys.exit], the exit code is 0 if
    every result the pipeline recorded has [passed] true and 1
    otherwise; with no recorded result it is 0.  The recorded results
    are those [run_audit] left in the pipeline built from the command
    line. *)
Theorem exit_code_iff_all_passed args w st code p st' :
  main_run args w st = (Ret (code, p), st') ->
  (exists report st1,
     AuditPipeline.run_audit (initial_pipeline args) w st = (Ret (report, p), st1)) /\
  main args w st = (Ret code, st') /\
  (code = 0 <-> Forall (fun r => passed r = true) (results p)) /\
  (code <> 0 -> code = 1) /\
  (results p = [] -> code = 0).
Proof.
  intros Hmain. split; [|split].
  - revert Hmain. unfold main_run, initial_pipeline. cbn [contract_path audit_level results metadata].
    unfold bind at 1.
    destruct (AuditPipeline.absent (arg_address args));
      (destruct (AuditPipeline.run_audit _ w st) as [[[report p']| |] st1];
       [|discriminate..]);
      (unfold bind at 1; match goal with |- context [?m w st1] => destruct (m w st1) as [[| |] st2] end;
       [|discriminate..]); cbn; intros [= <- <- <-]; eauto.
  - unfold main. by erewrite bind_ret by exact Hmain.
  - assert (code = if all_passed (results p) then 0 else 1) as ->.
    { revert Hmain. unfold main_run. unfold bind at 1.
      destruct (AuditPipeline.run_audit _ w st) as [[[report p']| |] st1];
        [|discriminate..].
      unfold bind at 1.
      match goal with |- context [?m w st1] => destruct (m w st1) as [[| |] st2] end;
        [|discriminate..].
      cbn. by intros [= <- <- <-]. }
    unfold all_passed. rewrite Forall_forall.
    destruct (forallb passed (results p)) eqn:Hall.
    + rewrite forallb_forall in Hall. repeat split; try done.
      intros _ r Hr. apply Hall. by apply list_elem_of_In.
    + repeat split; try done.
      * intros Hp. assert (forallb passed (results p) = true); [|congruence].
        apply forallb_forall. intros r Hr. apply Hp. by apply list_elem_of_In.
      * intros Hnil. rewrite Hnil in Hall. discriminate.
Qed.

Lemma exit_code_iff_all_passed_witness :
  exists p st',
    main_run (mkArgs "Token.sol" QUICK None None) only_contract start
    = (Ret (0, p), st') /\
    results p = [] /\
    (0 = 0 <-> Forall (fun r => passed r = true) (results p)).
Proof.
  destruct (main_run (mkArgs "Token.sol" QUICK None None) only_contract start)
    as [[[code p]| |] st'] eqn:Hmain; [|vm_compute in Hmain; discriminate..].
  assert (code = 0 /\ results p = []) as [-> Hnil].
  { vm_compute in Hmain. by inversion Hmain. }
  exists p, st'. split; [reflexivity|]. split; [exact Hnil|].
  exact (proj1 (proj2 (proj2
    (exit_code_iff_all_passed _ only_contract start 0 p st' Hmain)))).
Defined.

(** C6.  Without an address, or with an address and no credential in
    the environment, [fetch_etherscan_data] sends no request and
    returns a dict with a note, [transaction_count] 0 and
    [verification_status] "unknown"; when the address is there, the
    dict also has the zero address as [deployer_address] and "Unknown"
    as [creation_date]. *)
Theorem no_credential_no_network w st address :
  AuditPipeline.absent address = true
  \/ AuditPipeline.absent (getenv w "ETHERSCAN_API_KEY") = true ->
  exists r st' evs,
    AuditPipeline.fetch_etherscan_data address w st = (Ret r, st') /\
    trace st' = (trace st ++ evs)%list /\
    Forall (fun ev => is_network ev = false) evs /\
    is_Some (field "note" r) /\
    field "transaction_count" r = Some (JInt 0) /\
    field "verification_status" r = Some (JStr "unknown") /\
    (AuditPipeline.absent address = false ->
     field "deployer_address" r = Some (JStr AuditPipeline.zero_address) /\
     field "creation_date" r = Some (JStr "Unknown")).
Proof.
  intros H. unfold AuditPipeline.fetch_etherscan_data.
  destruct (AuditPipeline.absent address) eqn:Haddr.
  - eexists _, st, []. split; [reflexivity|]. rewrite app_nil_r.
    repeat split; done.
  - destruct H as [H|H]; [discriminate|]. step. rewrite H. cbn.
    eexists _, _, _. split; [reflexivity|]. cbn. rewrite <- !app_assoc.
    split; [reflexivity|]. split; [repeat constructor|].
    repeat split; done.
Qed.

Lemma no_credential_no_network_witness :
  (AuditPipeline.absent (Some sample_address) = true
   \/ AuditPipeline.absent (getenv bare "ETHERSCAN_API_KEY") = true) /\
  AuditPipeline.absent (Some sample_address) = false /\
  exists r st' evs,
    AuditPipeline.fetch_etherscan_data (Some sample_address) bare start = (Ret r, st') /\
    trace st' = (trace start ++ evs)%list /\
    Forall (fun ev => is_network ev = false) evs /\
    is_Some (field "note" r) /\
    field "transaction_count" r = Some (JInt 0) /\
    field "verification_status" r = Some (JStr "unknown") /\
    (AuditPipeline.absent (Some sample_address) = false ->
     field "deployer_address" r = Some (JStr AuditPipeline.zero_address) /\
     field "creation_date" r = Some (JStr "Unknown")).
Proof.
  assert (AuditPipeline.absent (Some sample_address) = true
          \/ AuditPipeline.absent (getenv bare "ETHERSCAN_API_KEY") = true) as H
    by (right; reflexivity).
  split; [exact H|]. split; [reflexivity|].
  exact (no_credential_no_network bare start (Some sample_address) H).
Defined.

(** C9 (as amended).  Take a fetch with an address and a credential in
    which both requests are answered with JSON, the first answer carries
    the list [txs] as its result under status "1" (or the list is
    empty), and the returned dict is not error-marked.  Then
    [transaction_count] is the length of [txs]; if no transaction of
    [txs] has the empty string as [to], [deployer_address] and
    [creation_date] are "Unknown"; and for the first transaction that
    has, [deployer_address] is its [from] and [creation_date] the ISO
    form of its [timeStamp]. *)
Theorem creation_transaction_decides
    w st address key tx_data source_data status txs r st' :
  AuditPipeline.absent (Some address) = false ->
  getenv w "ETHERSCAN_API_KEY" = Some key ->
  AuditPipeline.absent (Some key) = false ->
  requests_importable w = true ->
  http w (AuditPipeline.tx_url address key) = Responds (Ok tx_data) ->
  http w (AuditPipeline.source_url address key) = Responds (Ok source_data) ->
  Py.get tx_data "status" JNull = Ok status ->
  Py.get tx_data "result" JNull = Ok (JArr txs) ->
  Py.eq_str status "1" = true \/ txs = [] ->
  AuditPipeline.fetch_etherscan_data (Some address) w st = (Ret r, st') ->
  field "error" r = None ->
  field "transaction_count" r = Some (JInt (Z.of_nat (length txs))) /\
  (Forall (fun tx => has_empty_to tx = false) txs ->
   field "deployer_address" r = Some (JStr "Unknown") /\
   field "creation_date" r = Some (JStr "Unknown")) /\
  (forall pre tx post,
     txs = (pre ++ tx :: post)%list ->
     Forall (fun t => has_empty_to t = false) pre ->
     has_empty_to tx = true ->
     exists deployer timestamp date,
       Py.get tx "from" (JStr "Unknown") = Ok deployer /\
       timestamp_of w tx = Ok timestamp /\
       fromtimestamp_isoformat w timestamp = Ok date /\
       field "deployer_address" r = Some deployer /\
       field "creation_date" r = Some (JStr date)).
Proof.
  intros Haddr Hkey Hkey' Himp Htx Hsrc Hstatus Hresult Hcase Hfetch Herr.
  destruct (fetch_success _ _ _ _ _ _ _ _ Haddr Hkey Hkey' Himp Htx Hsrc Hfetch Herr)
    as (n & deployer & date & verification & Hparse & _ & ->).
  destruct (parse_transactions_list _ _ _ _ _ _ _ _ Hstatus Hresult Hcase Hparse)
    as (creation & Hfind & -> & Hfields).
  split; [reflexivity|]. split.
  - intros Hnone. rewrite (find_creation_none _ _ _ _ Hnone Hfind) in Hfields.
    cbn in Hfields. by inversion Hfields.
  - intros pre tx post -> Hpre Hto.
    destruct (find_creation_first _ _ _ _ _ _ Hpre Hto Hfind)
      as (d & t & c & Hfrom & Hstamp & Hiso & ->).
    cbn in Hfields. inversion Hfields; subst. by exists d, t, c.
Qed.

Lemma creation_transaction_decides_witness :
  exists r st',
    AuditPipeline.fetch_etherscan_data (Some sample_address) explorer_answers start
    = (Ret r, st') /\
    field "error" r = None /\
    field "transaction_count" r = Some (JInt 2) /\
    field "deployer_address" r = Some (JStr "0x36928500bc1dcd7af6a2b4008875cc336b927d57") /\
    field "creation_date" r = Some (JStr "2017-11-28T00:41:21").
Proof.
  destruct (AuditPipeline.fetch_etherscan_data (Some sample_address) explorer_answers start)
    as [r st'] eqn:Hfetch.
  destruct r as [r| |]; [|vm_compute in Hfetch; discriminate..].
  assert (field "error" r = None) as Herr.
  { vm_compute in Hfetch. by inversion Hfetch. }
  destruct (creation_transaction_decides explorer_answers start sample_address sample_key
              sample_tx_data sample_source_data (JStr "1") sample_transactions r st'
              eq_refl eq_refl eq_refl eq_refl eq_refl eq_refl eq_refl eq_refl
              (or_introl eq_refl) Hfetch Herr) as (Hcount & _ & Hfirst).
  destruct (Hfirst [] _ _ eq_refl (Forall_nil_2 _) eq_refl)
    as (deployer & timestamp & date & Hfrom & Hstamp & Hiso & Hdep & Hdate).
  exists r, st'. split; [reflexivity|]. split; [exact Herr|]. split; [exact Hcount|].
  vm_compute in Hfrom. vm_compute in Hstamp.
  inversion Hfrom; subst. inversion Hstamp; subst.
  vm_compute in Hiso. inversion Hiso; subst.
  split; [exact Hdep|exact Hdate].
Defined.

(** C9, the claim as stated, fails in two ways although both requests
    are answered.  A listing under a status other than "1" is not counted:
    with two transfers listed under status "0", none of them with an
    empty [to], the normal result has [transaction_count] 0, not 2.  And
    a creation transaction whose time stamp [int] refuses supplies
    nothing: the dict returned is error-marked and has neither
    [deployer_address] nor [creation_date]. *)
Lemma answered_fetch_breaks_count_and_creation :
  (exists txs r st',
     http explorer_lists_under_status_0 (AuditPipeline.tx_url sample_address sample_key)
     = Responds (Ok unlisted_tx_data) /\
     http explorer_lists_under_status_0 (AuditPipeline.source_url sample_address sample_key)
     = Responds (Ok sample_source_data) /\
     field "result" unlisted_tx_data = Some (JArr txs) /\
     Forall (fun tx => has_empty_to tx = false) txs /\
     length txs = 2%nat /\
     AuditPipeline.fetch_etherscan_data (Some sample_address)
       explorer_lists_under_status_0 start = (Ret r, st') /\
     field "error" r = None /\
     field "deployer_address" r = Some (JStr "Unknown") /\
     field "transaction_count" r = Some (JInt 0) /\
     field "transaction_count" r <> Some (JInt (Z.of_nat (length txs)))) /\
  (exists tx r st' message,
     http explorer_lists_undated (AuditPipeline.tx_url sample_address sample_key)
     = Responds (Ok undated_tx_data) /\
     http explorer_lists_undated (AuditPipeline.source_url sample_address sample_key)
     = Responds (Ok sample_source_data) /\
     field "result" undated_tx_data = Some (JArr [tx]) /\
     has_empty_to tx = true /\
     Py.get tx "from" (JStr "Unknown")
     = Ok (JStr "0x36928500bc1dcd7af6a2b4008875cc336b927d57") /\
     AuditPipeline.fetch_etherscan_data (Some sample_address)
       explorer_lists_undated start = (Ret r, st') /\
     field "error" r = Some (JStr message) /\
     field "deployer_address" r = None /\
     field "creation_date" r = None).
Proof.
  split.
  - eexists _, _, _. split; [reflexivity|]. split; [reflexivity|].
    split; [reflexivity|]. split; [repeat constructor|]. split; [reflexivity|].
    split; [vm_compute; reflexivity|]. by repeat split.
  - eexists _, _, _, _. split; [reflexivity|]. split; [reflexivity|].
    split; [reflexivity|]. split; [reflexivity|]. split; [reflexivity|].
    split; [vm_compute; reflexivity|]. by repeat split.
Qed.

(** C2, at the failing input: a credential is configured and the
    explorer cannot be reached.  [requests] names the path and query of
    the request in the exception message, the fetcher copies the message
    into the [error] field, and the credential is in the returned dict. *)
Theorem network_failure_leaks_credential :
  getenv explorer_unreachable "ETHERSCAN_API_KEY" = Some sample_key /\
  exists r st' message,
    AuditPipeline.fetch_etherscan_data (Some sample_address) explorer_unreachable start
    = (Ret r, st') /\
    field "error" r = Some (JStr message) /\
    PyStr.startswith "Failed to fetch data: " message = true /\
    PyStr.contains sample_key message = true /\
    mentions sample_key r = true.
Proof.
  split; [reflexivity|].
  eexists _, _, _. split; [vm_compute; reflexivity|].
  split; [reflexivity|]. by vm_compute.
Qed.

End Claims.

(** * Further properties *)

(** ** Strings *)

Lemma append_cons c s t : String c s +:+ t = String c (s +:+ t).
Proof. reflexivity. Qed.

Lemma append_length s t :
  String.length (s +:+ t) = (String.length s + String.length t)%nat.
Proof. induction s as [|c s IH]; [done|]. rewrite append_cons. cbn. by rewrite IH. Qed.

Lemma drop_append t p : PyStr.drop (String.length t) (t +:+ p) = p.
Proof. induction t as [|c t IH]; [by destruct p|]. by rewrite append_cons. Qed.

Lemma drop_split n s : exists t, s = t +:+ PyStr.drop n s.
Proof.
  revert s. induction n as [|n IH]; intros s.
  - by exists "".
  - destruct s as [|c s]; [by exists ""|].
    destruct (IH s) as [t Ht]. exists (String c t).
    rewrite append_cons. cbn. by rewrite <- Ht.
Qed.

Lemma endswith_iff p s :
  PyStr.endswith p s = true <-> exists stem, s = stem +:+ p.
Proof.
  unfold PyStr.endswith. rewrite andb_true_iff, Nat.leb_le, String.eqb_eq. split.
  - intros [_ Hd]. destruct (drop_split (String.length s - String.length p) s) as [t Ht].
    exists t. by rewrite Hd in Ht.
  - intros [stem ->]. rewrite append_length. split; [lia|].
    replace (String.length stem + String.length p - String.length p)%nat
      with (String.length stem) by lia.
    apply drop_append.
Qed.

Section Further.

Import SlitherAnalyzer SlitherSpec AuditPipeline.

(** ** The utility functions, in full *)

(** X1.  [validate_contract_path] never raises.  It answers true exactly
    when the path exists and is some stem followed by [.sol]; then it has
    only looked the path up.  When it answers false it has printed one
    error line. *)
Theorem validate_contract_path_spec w st path :
  exists ok st',
    validate_contract_path path w st = (Ret ok, st') /\
    (ok = true <-> path_exists w path = true /\ exists stem, path = stem +:+ ".sol") /\
    (ok = true -> st' = State (trace st ++ [EvPathExists path]) (ticks st)) /\
    (ok = false ->
     exists message,
       st' = State (trace st ++ [EvPathExists path; EvLog ERROR message]) (S (ticks st))).
Proof.
  unfold validate_contract_path. step.
  destruct (path_exists w path) eqn:Hp; cbn.
  - destruct (PyStr.endswith ".sol" path) eqn:He; cbn.
    + eexists _, _. split; [reflexivity|]. rewrite <- endswith_iff. by repeat split.
    + eexists _, _. split; [reflexivity|]. rewrite <- endswith_iff, He.
      repeat split; try done; try (intros [_ ?]; done).
      intros _. rewrite <- app_assoc. by eexists.
  - eexists _, _. split; [reflexivity|].
    repeat split; try done; try (intros [? _]; done).
    intros _. rewrite <- app_assoc. by eexists.
Qed.

(** X2.  A tool name [check_tool_installed] has no branch for is reported
    installed, and no process is started to find out. *)
Theorem unprobed_tool_reported_installed tool w st :
  tool ∉ probes.*1 ->
  check_tool_installed tool w st = (Ret true, st).
Proof.
  unfold probes. cbn. rewrite !not_elem_of_cons. intros (H1 & H2 & H3 & H4 & _).
  unfold check_tool_installed.
  destruct (String.eqb_spec tool "slither"); [done|].
  destruct (String.eqb_spec tool "mythril"); [done|].
  destruct (String.eqb_spec tool "echidna"); [done|].
  destruct (String.eqb_spec tool "certora"); [done|].
  reflexivity.
Qed.

Lemma unprobed_tool_reported_installed_witness :
  ("mythx" ∉ probes.*1) /\
  ("mythx" ∈ TOOLS_CONFIG) /\
  check_tool_installed "mythx" bare start = (Ret true, start).
Proof.
  assert ("mythx" ∉ probes.*1) as H.
  { unfold probes. cbn. rewrite !not_elem_of_cons. repeat split; try discriminate.
    apply not_elem_of_nil. }
  split; [exact H|]. split; [unfold TOOLS_CONFIG; repeat constructor|].
  exact (unprobed_tool_reported_installed "mythx" bare start H).
Defined.

(** ** The analyzer run, in full *)

Lemma run_trace w st path :
  exists tail,
    run path w st
    = (Ret (result_of w (ticks st) path),
       State (trace st ++ [EvLog INFO "Running Slither static analysis..."; slither_run path]
                       ++ tail)
             (3 + ticks st)) /\
    ((~ analyzer_fails w path /\ tail = [])
     \/ (analyzer_fails w path /\ exists message, tail = [EvLog ERROR message])).
Proof.
  unfold run, result_of, slither_run, subprocess_run. step.
  fold (slither_argv path).
  destruct (process w (slither_argv path)) as [e|seconds rc out err|] eqn:Hp; cbn.
  - eexists. rewrite <- !app_assoc. split; [reflexivity|]. right.
    split; [by eapply fails_to_run|by eexists].
  - destruct (Qle_bool seconds (inject_Z 300)) eqn:Hin; cbn;
      [|eexists; rewrite <- !app_assoc; split; [reflexivity|]; right;
        split; [by eapply times_out|by eexists]].
    destruct (rc =? 0) eqn:Hrc; cbn;
      [|eexists; rewrite <- !app_assoc; split; [reflexivity|]; right;
        split; [eapply exits_nonzero; [done|by apply Z.eqb_neq]|by eexists]].
    destruct (analyse (json_loads w) out) as [[[sc0 rep0] ok0]|e0] eqn:Ha;
      unfold analyse in Ha;
      destruct (json_loads w out) as [parsed|e] eqn:Hl; cbn in Ha |- *;
      try discriminate;
      try (eexists; rewrite <- !app_assoc; split; [reflexivity|]; right;
           split; [by eapply output_malformed|by eexists]).
    + destruct (detections parsed) as [reported|e] eqn:Hd; cbn in Ha |- *; [|discriminate].
      destruct (Py.iter reported) as [issues|e] eqn:Hi; cbn in Ha |- *; [|discriminate].
      destruct (count_issues initial_count issues) as [sc|e] eqn:Hc;
        cbn in Ha |- *; [|discriminate].
      destruct (verdict sc) as [ok|e] eqn:Hv; cbn in Ha |- *; [|discriminate].
      injection Ha as <- <- <-.
      exists []. rewrite <- !app_assoc. split; [reflexivity|]. left. split; [|done].
      intros [? H|H|? ? ? ? H Hin'|? ? ? ? H Hrc'|? ? ? ? ? H Hl'|? ? ? ? ? H Ha'];
        rewrite Hp in H; try discriminate; injection H as <- <- <- <-.
      * cbn in Hin'. congruence.
      * apply Z.eqb_eq in Hrc. congruence.
      * congruence.
      * unfold analyse in Ha'. rewrite Hl in Ha'. cbn in Ha'.
        rewrite Hd in Ha'. cbn in Ha'. rewrite Hi in Ha'. cbn in Ha'.
        rewrite Hc in Ha'. cbn in Ha'. rewrite Hv in Ha'. discriminate.
    + assert (analyse (json_loads w) out = Err e0) as Ha'.
      { unfold analyse. by rewrite Hl. }
      destruct (detections parsed) as [reported|e] eqn:Hd; cbn in Ha |- *;
        [|eexists; rewrite <- !app_assoc; split; [reflexivity|]; right;
          split; [by eapply output_misshapen|by eexists]].
      destruct (Py.iter reported) as [issues|e] eqn:Hi; cbn in Ha |- *;
        [|eexists; rewrite <- !app_assoc; split; [reflexivity|]; right;
          split; [by eapply output_misshapen|by eexists]].
      destruct (count_issues initial_count issues) as [sc|e] eqn:Hc; cbn in Ha |- *;
        [|eexists; rewrite <- !app_assoc; split; [reflexivity|]; right;
          split; [by eapply output_misshapen|by eexists]].
      destruct (verdict_defined _ _ Hc) as [ok Hv]. rewrite Hv in Ha. discriminate.
  - eexists. rewrite <- !app_assoc. split; [reflexivity|]. right.
    split; [by eapply never_exits|by eexists].
Qed.

(** X3.  [SlitherAnalyzer.run] starts exactly one process, the analyzer
    on the contract with [--json], output captured as text, no [check],
    timeout 300, and sends no request.  It reads the clock three times,
    prints its opening line, and prints one error line exactly when the
    analysis fails. *)
Theorem run_effects w st path :
  exists r st' tail,
    run path w st = (Ret r, st') /\
    trace st' = (trace st ++ [EvLog INFO "Running Slither static analysis...";
                              slither_run path] ++ tail)%list /\
    ticks st' = (3 + ticks st)%nat /\
    processes ([EvLog INFO "Running Slither static analysis..."; slither_run path] ++ tail)
    = [slither_run path] /\
    requests ([EvLog INFO "Running Slither static analysis..."; slither_run path] ++ tail)
    = [] /\
    (analyzer_fails w path -> exists message, tail = [EvLog ERROR message]) /\
    (~ analyzer_fails w path -> tail = []).
Proof.
  destruct (run_trace w st path) as (tail & Hrun & Htail).
  eexists _, _, tail. split; [exact Hrun|]. cbn [trace ticks].
  split; [done|]. split; [done|].
  destruct Htail as [[Hok ->]|[Hfail [message ->]]].
  - repeat split; done.
  - repeat split; try done. intros _. by eexists.
Qed.

Lemma run_effects_witness :
  analyzer_fails analyzer_crashes "Token.sol" /\
  ~ analyzer_fails analyzer_reports "Token.sol" /\
  (exists r st',
     run "Token.sol" analyzer_crashes start = (Ret r, st') /\
     trace st' = [EvLog INFO "Running Slither static analysis..."; slither_run "Token.sol";
                  EvLog ERROR "Slither failed with error: Error: Token.sol: compilation failed"]) /\
  (exists r st',
     run "Token.sol" analyzer_reports start = (Ret r, st') /\
     trace st' = [EvLog INFO "Running Slither static analysis..."; slither_run "Token.sol"]).
Proof.
  split; [exact analyzer_crashes_fails|]. split; [exact analyzer_reports_succeeds|]. split.
  - destruct (run_effects analyzer_crashes start "Token.sol")
      as (r & st' & tail & Hrun & Htrace & _ & _ & _ & Hfail & _).
    exists r, st'. split; [exact Hrun|].
    destruct (Hfail analyzer_crashes_fails) as [message ->].
    rewrite Htrace. vm_compute in Hrun. injection Hrun as _ Hst. rewrite <- Hst in Htrace.
    cbn in Htrace. injection Htrace as <-. reflexivity.
  - destruct (run_effects analyzer_reports start "Token.sol")
      as (r & st' & tail & Hrun & Htrace & _ & _ & _ & _ & Hok).
    exists r, st'. split; [exact Hrun|].
    rewrite Htrace, (Hok analyzer_reports_succeeds). reflexivity.
Defined.

(** *** The tally, again *)

Lemma count_issue_raises sc issue :
  malformed issue = true ->
  exists message, count_issue sc issue = Err (Exn AttributeError message).
Proof.
  unfold malformed, count_issue.
  destruct issue as [| | | | | | |l|kvs]; try (intros _; by eexists).
  cbn. destruct (assoc "severity" kvs) as [[| | | | | |s| |]|];
    try discriminate; intros _; by eexists.
Qed.

Lemma count_issues_raises sc issues :
  Exists (fun issue => malformed issue = true) issues ->
  exists message, count_issues sc issues = Err (Exn AttributeError message).
Proof.
  revert sc. induction issues as [|issue rest IH]; intros sc H; [by inversion H|].
  cbn. destruct (malformed issue) eqn:Hm.
  - destruct (count_issue_raises sc issue Hm) as [message ->]. by eexists.
  - destruct (count_issue_defined sc issue Hm) as [sc' ->]. cbn.
    apply IH. inversion H; subst; [congruence|done].
Qed.

Lemma count_issues_wellformed sc sc' issues :
  count_issues sc issues = Ok sc' -> Forall (fun issue => malformed issue = false) issues.
Proof.
  intros H. apply Forall_forall. intros issue Hin.
  destruct (malformed issue) eqn:Hm; [|done].
  destruct (count_issues_raises sc issues) as [message Herr]; [|congruence].
  apply Exists_exists. eauto.
Qed.

Lemma tally_Permutation b issues issues' :
  issues ≡ₚ issues' -> tally b issues = tally b issues'.
Proof.
  unfold tally. induction 1 as [|x l l' _ IH|x y l|l l' l'' _ IH1 _ IH2]; cbn.
  - done.
  - destruct (has_severity b x); cbn; by rewrite IH.
  - by destruct (has_severity b x), (has_severity b y).
  - by rewrite IH1.
Qed.

(** X4.  The severity counts do not depend on the order in which the
    analyzer lists its detections. *)
Theorem count_issues_Permutation sc sc' issues issues' :
  issues ≡ₚ issues' ->
  count_issues sc issues = Ok sc' ->
  count_issues sc issues' = Ok sc'.
Proof.
  intros Hperm Hc.
  destruct (count_issues_defined sc issues') as [sc'' Hc'].
  { rewrite <- Hperm. by eapply count_issues_wellformed. }
  rewrite Hc'. f_equal. apply map_eq. intros b.
  rewrite (count_issues_lookup _ _ _ b Hc), (count_issues_lookup _ _ _ b Hc').
  by rewrite (tally_Permutation b _ _ Hperm).
Qed.

Lemma count_issues_Permutation_witness :
  let issues := [JObj [("severity", JStr "High")]; JObj [("check", JStr "x")]] in
  reverse issues ≡ₚ issues /\
  count_issues initial_count (reverse issues)
  = Ok (<["high" := 1%nat]> (<["informational" := 1%nat]> initial_count)) /\
  count_issues initial_count issues
  = Ok (<["high" := 1%nat]> (<["informational" := 1%nat]> initial_count)).
Proof.
  cbv zeta.
  set (issues := [JObj [("severity", JStr "High")]; JObj [("check", JStr "x")]]).
  assert (reverse issues ≡ₚ issues) as Hperm by apply reverse_Permutation.
  assert (count_issues initial_count (reverse issues)
          = Ok (<["high" := 1%nat]> (<["informational" := 1%nat]> initial_count))) as Hc
    by (vm_compute; reflexivity).
  split; [exact Hperm|]. split; [exact Hc|].
  exact (count_issues_Permutation _ _ _ _ Hperm Hc).
Defined.

(** X5.  One detection that is not a dict, or whose severity is not a
    string, voids the whole analysis: although the analyzer exited with
    status zero in time and its output was valid JSON with a list of
    detections, the result is the failed one, without any count. *)
Theorem malformed_issue_voids_run w st path seconds out err parsed issues :
  process w (slither_argv path) = Terminates seconds 0 out err ->
  within (Some 300) seconds = true ->
  json_loads w out = Ok parsed ->
  detections parsed = Ok (JArr issues) ->
  Exists (fun issue => malformed issue = true) issues ->
  exists st' message,
    run path w st = (Ret failed, st') /\
    last (trace st') = Some (EvLog ERROR ("Slither execution error: " +:+ message)).
Proof.
  intros Hp Hin Hl Hd Hbad.
  destruct (count_issues_raises initial_count issues Hbad) as [message Hc].
  unfold run, slither_run, subprocess_run. step. fold (slither_argv path).
  rewrite Hp. cbn. cbn in Hin. rewrite Hin. cbn. rewrite Hl. cbn.
  rewrite Hd. cbn. rewrite Hc. cbn.
  eexists _, _. split; [reflexivity|]. cbn. by rewrite last_snoc.
Qed.

Lemma malformed_issue_voids_run_witness :
  let w :=
    with_json (fun _ => Ok (JObj [("results", JObj [("detections", JArr
                 [JObj [("severity", JStr "High")]; JObj [("severity", JNull)]])])]))
              analyzer_reports in
  exists st',
    run "Token.sol" w start = (Ret failed, st') /\
    last (trace st')
    = Some (EvLog ERROR "Slither execution error: 'NoneType' object has no attribute 'lower'").
Proof.
  cbv zeta.
  assert (Exists (fun issue => malformed issue = true)
                 [JObj [("severity", JStr "High")]; JObj [("severity", JNull)]]) as Hbad
    by (apply Exists_cons_tl, Exists_cons_hd; reflexivity).
  destruct (malformed_issue_voids_run
              (with_json (fun _ => Ok (JObj [("results", JObj [("detections", JArr
                 [JObj [("severity", JStr "High")]; JObj [("severity", JNull)]])])]))
                 analyzer_reports)
              start "Token.sol" 2 report_text ""
              (JObj [("results", JObj [("detections", JArr
                 [JObj [("severity", JStr "High")]; JObj [("severity", JNull)]])])])
              [JObj [("severity", JStr "High")]; JObj [("severity", JNull)]]
              eq_refl eq_refl eq_refl eq_refl Hbad)
    as (st' & message & Hrun & Hlast).
  exists st'. split; [exact Hrun|].
  vm_compute in Hrun. injection Hrun as <-. reflexivity.
Defined.

(** X6.  Output that parses to a dict without [results], or whose
    [results] is a dict without [detections], counts as a clean report:
    every bucket at zero, no findings, and the run passes. *)
Theorem missing_detections_pass w st path seconds out err kvs :
  process w (slither_argv path) = Terminates seconds 0 out err ->
  within (Some 300) seconds = true ->
  json_loads w out = Ok (JObj kvs) ->
  (assoc "results" kvs = None
   \/ exists inner, assoc "results" kvs = Some (JObj inner)
                    /\ assoc "detections" inner = None) ->
  exists st',
    run path w st
    = (Ret (mkAuditResult "Slither" initial_count (JArr [])
              (clock w (S (S (ticks st))) - clock w (S (ticks st))) true), st').
Proof.
  intros Hp Hin Hl Hmissing.
  assert (detections (JObj kvs) = Ok (JArr [])) as Hd.
  { unfold detections. cbn.
    destruct Hmissing as [->|(inner & -> & Hinner)]; cbn; [done|by rewrite Hinner]. }
  assert (verdict initial_count = Ok true) as Hv by (vm_compute; reflexivity).
  unfold run, slither_run, subprocess_run. step. fold (slither_argv path).
  rewrite Hp. cbn. cbn in Hin. rewrite Hin. cbn -[detections]. rewrite Hl.
  cbn -[detections]. rewrite Hd. cbn -[verdict initial_count]. rewrite Hv.
  cbn. by eexists.
Qed.

Lemma missing_detections_pass_witness :
  let w := with_json (fun _ => Ok (JObj [("success", JBool true)])) analyzer_reports in
  exists st',
    run "Token.sol" w start
    = (Ret (mkAuditResult "Slither" initial_count (JArr []) 1000000 true), st').
Proof.
  cbv zeta.
  exact (missing_detections_pass
           (with_json (fun _ => Ok (JObj [("success", JBool true)])) analyzer_reports)
           start "Token.sol" 2 report_text "" [("success", JBool true)]
           eq_refl eq_refl eq_refl (or_introl eq_refl)).
Defined.

(** ** The metadata fetcher, in full *)

Ltac fetch_cases w :=
  unfold fetch_etherscan_data, get_json; step;
  repeat match goal with
    | |- context [absent ?a] => destruct (absent a) eqn:?; cbn
    | |- context [requests_importable w] => destruct (requests_importable w) eqn:?; cbn
    | |- context [match http w ?u with _ => _ end] =>
        destruct (http w u) as [?|[?|?]|] eqn:?; cbn
    | |- context [match parse_transactions ?c ?i ?d with _ => _ end] =>
        destruct (parse_transactions c i d) as [[[? ?] ?]|?] eqn:?; cbn
    | |- context [match parse_verification ?d with _ => _ end] =>
        destruct (parse_verification d) eqn:?; cbn
    | |- context [if is_RequestException ?c then _ else _] =>
        destruct (is_RequestException c) eqn:?; cbn
    end.

Lemma parse_verification_values source_data status :
  parse_verification source_data = Ok status ->
  status = "verified" \/ status = "not_verified".
Proof.
  unfold parse_verification.
  destruct (Py.get source_data "status" JNull) as [s|]; cbn; [|discriminate].
  destruct (Py.eq_str s "1"); cbn; [|intros [= <-]; by right].
  destruct (Py.get source_data "result" JNull) as [r|]; cbn; [|discriminate].
  destruct (Py.truthy r); cbn; [|intros [= <-]; by right].
  destruct (Py.getitem source_data "result") as [listed|]; cbn; [|discriminate].
  destruct (Py.is_list listed); cbn.
  - destruct (Py.first listed) as [entry|]; cbn; [|discriminate].
    destruct (Py.get entry "SourceCode" JNull) as [code|]; cbn; [|discriminate].
    destruct (Py.truthy code); intros [= <-]; auto.
  - destruct (Py.get listed "SourceCode" JNull) as [code|]; cbn; [|discriminate].
    destruct (Py.truthy code); intros [= <-]; auto.
Qed.

(** X7.  [fetch_etherscan_data] never raises.  Either it blocks, which
    it does exactly when it sends a request that is never answered in
    full, or it returns a dict.  The dict is either marked, with a [note]
    or an [error] and no [api_endpoint], or it is a normal result, with
    neither mark, an [api_endpoint], a [transaction_count] that is a
    natural number and a [verification_status] that is "verified" or
    "not_verified". *)
Theorem fetch_returns_a_dict_or_blocks w st address :
  exists o st',
    fetch_etherscan_data address w st = (o, st') /\
    match o with
    | Ret r =>
        fetch_blocks w address = false /\
        exists kvs,
          r = JObj kvs /\
          (((is_Some (assoc "note" kvs) \/ is_Some (assoc "error" kvs))
            /\ assoc "api_endpoint" kvs = None)
           \/ (assoc "note" kvs = None /\ assoc "error" kvs = None /\
               is_Some (assoc "api_endpoint" kvs) /\
               (exists n, assoc "transaction_count" kvs = Some (JInt (Z.of_nat n))) /\
               (assoc "verification_status" kvs = Some (JStr "verified")
                \/ assoc "verification_status" kvs = Some (JStr "not_verified"))))
    | Raise _ => False
    | Hang => fetch_blocks w address = true
    end.
Proof.
  unfold fetch_blocks.
  fetch_cases w; eexists _, _; (split; [reflexivity|]); cbn; try reflexivity;
    (split; [reflexivity|]); eexists; (split; [reflexivity|]); cbn;
    try (left; split; [|reflexivity]; (by left) || (by right)).
  right. repeat split; try done; [by eexists|].
  match goal with H : parse_verification _ = Ok _ |- _ =>
    destruct (parse_verification_values _ _ H) as [->| ->] end; auto.
Qed.

(** X8.  The requests [fetch_etherscan_data] sends, whether it returns
    or blocks, are, in this order, the transaction list and the source
    lookup for the given address, each with the credential of the
    environment and a timeout of ten seconds, or an initial part of
    these two.  It sends none unless an address was given, a credential
    is set and [requests] can be imported, and it never starts a
    process. *)
Theorem fetch_requests w st address :
  exists o st' evs,
    fetch_etherscan_data address w st = (o, st') /\
    trace st' = (trace st ++ evs)%list /\
    requests evs `prefix_of`
      [EvGet (tx_url (default "" address) (default "" (getenv w "ETHERSCAN_API_KEY"))) 10;
       EvGet (source_url (default "" address) (default "" (getenv w "ETHERSCAN_API_KEY"))) 10]
    /\
    (requests evs <> [] ->
     absent address = false /\ absent (getenv w "ETHERSCAN_API_KEY") = false
     /\ requests_importable w = true) /\
    processes evs = [].
Proof.
  fetch_cases w; eexists _, _, _; (split; [reflexivity|]); cbn;
    rewrite <- ?app_assoc; cbn;
    (split; [try (symmetry; apply app_nil_r); reflexivity|]); cbn;
    (split; [by eexists|]); by split.
Qed.

(** X9.  When a request fails, in being sent or in reading its body as
    JSON, the returned dict holds the error text and the address and
    nothing else: what the other request answered is discarded.  After a
    failure of the first request the second is not sent. *)
Theorem failed_request_discards_data w st address key e :
  absent (Some address) = false ->
  getenv w "ETHERSCAN_API_KEY" = Some key ->
  absent (Some key) = false ->
  requests_importable w = true ->
  request_failure w (tx_url address key) = Some e
  \/ ((exists tx_data, http w (tx_url address key) = Responds (Ok tx_data))
      /\ request_failure w (source_url address key) = Some e) ->
  exists st' evs,
    fetch_etherscan_data (Some address) w st
    = (Ret (JObj [("error", JStr (error_text e)); ("contract_address", JStr address)]), st') /\
    trace st' = (trace st ++ evs)%list /\
    requests evs
    = match request_failure w (tx_url address key) with
      | Some _ => [EvGet (tx_url address key) 10]
      | None => [EvGet (tx_url address key) 10; EvGet (source_url address key) 10]
      end.
Proof.
  intros Haddr Hkey Hkey' Himp Hfail. unfold request_failure in *.
  unfold fetch_etherscan_data, get_json, error_text. rewrite Haddr. step.
  rewrite Hkey, Hkey', Himp. cbn.
  destruct (http w (tx_url address key)) as [e1|[d1|e1]|]; cbn.
  - destruct Hfail as [[= ->]|[[? [=]] _]].
    destruct (is_RequestException (exn_cls e)); cbn;
      eexists _, _; rewrite <- !app_assoc; by repeat split.
  - destruct Hfail as [[=]|[_ Hsrc]].
    destruct (http w (source_url address key)) as [e2|[d2|e2]|]; cbn;
      try discriminate; injection Hsrc as ->;
      destruct (is_RequestException (exn_cls e)); cbn;
      eexists _, _; rewrite <- !app_assoc; by repeat split.
  - destruct Hfail as [[= ->]|[[? [=]] _]].
    destruct (is_RequestException (exn_cls e)); cbn;
      eexists _, _; rewrite <- !app_assoc; by repeat split.
  - destruct Hfail as [[=]|[[? [=]] _]].
Qed.

Lemma failed_request_discards_data_witness :
  exists e st' evs,
    request_failure explorer_unreachable (tx_url sample_address sample_key) = Some e /\
    fetch_etherscan_data (Some sample_address) explorer_unreachable start
    = (Ret (JObj [("error", JStr (error_text e));
                  ("contract_address", JStr sample_address)]), st') /\
    trace st' = (trace start ++ evs)%list /\
    requests evs = [EvGet (tx_url sample_address sample_key) 10].
Proof.
  destruct (request_failure explorer_unreachable (tx_url sample_address sample_key))
    as [e|] eqn:He; [|vm_compute in He; discriminate].
  destruct (failed_request_discards_data explorer_unreachable start sample_address
              sample_key e eq_refl eq_refl eq_refl eq_refl (or_introl He))
    as (st' & evs & Hfetch & Htrace & Hreq).
  exists e, st', evs. split; [reflexivity|]. split; [exact Hfetch|].
  split; [exact Htrace|]. rewrite Hreq, He. reflexivity.
Defined.

(** X10.  In a normal result the verification status follows the source
    lookup alone.  An answer whose status is not "1" gives "not_verified"
    whatever else it holds; under status "1" with a list as result, only
    the first entry counts, and it gives "verified" exactly when its
    [SourceCode] is a true value (not missing, not the empty string). *)
Theorem verification_follows_source w st address key tx_data source_data status r st' :
  absent (Some address) = false ->
  getenv w "ETHERSCAN_API_KEY" = Some key ->
  absent (Some key) = false ->
  requests_importable w = true ->
  http w (tx_url address key) = Responds (Ok tx_data) ->
  http w (source_url address key) = Responds (Ok source_data) ->
  Py.get source_data "status" JNull = Ok status ->
  fetch_etherscan_data (Some address) w st = (Ret r, st') ->
  field "error" r = None ->
  (Py.eq_str status "1" = false ->
   field "verification_status" r = Some (JStr "not_verified")) /\
  (forall entry rest code,
     Py.eq_str status "1" = true ->
     Py.get source_data "result" JNull = Ok (JArr (entry :: rest)) ->
     Py.get entry "SourceCode" JNull = Ok code ->
     field "verification_status" r
     = Some (JStr (if Py.truthy code then "verified" else "not_verified"))).
Proof.
  intros Haddr Hkey Hkey' Himp Htx Hsrc Hstatus Hfetch Herr.
  destruct (fetch_success _ _ _ _ _ _ _ _ Haddr Hkey Hkey' Himp Htx Hsrc Hfetch Herr)
    as (n & deployer & date & verification & _ & Hparse & ->).
  cbn. unfold parse_verification in Hparse. rewrite Hstatus in Hparse. cbn in Hparse.
  split.
  - intros Hne. rewrite Hne in Hparse. cbn in Hparse. by injection Hparse as <-.
  - intros entry rest code Heq Hresult Hcode. rewrite Heq, Hresult in Hparse.
    cbn in Hparse. rewrite (get_getitem _ _ _ _ Hresult) in Hparse by discriminate.
    cbn in Hparse. rewrite Hcode in Hparse. cbn in Hparse. by injection Hparse as <-.
Qed.

Lemma verification_follows_source_witness :
  exists r st',
    fetch_etherscan_data (Some sample_address) explorer_answers start = (Ret r, st') /\
    field "error" r = None /\
    field "verification_status" r = Some (JStr "verified").
Proof.
  destruct (fetch_etherscan_data (Some sample_address) explorer_answers start)
    as [r st'] eqn:Hfetch.
  destruct r as [r| |]; [|vm_compute in Hfetch; discriminate..].
  assert (field "error" r = None) as Herr.
  { vm_compute in Hfetch. by inversion Hfetch. }
  destruct (verification_follows_source explorer_answers start sample_address sample_key
              sample_tx_data sample_source_data (JStr "1") r st'
              eq_refl eq_refl eq_refl eq_refl eq_refl eq_refl eq_refl Hfetch Herr)
    as [_ Hlist].
  exists r, st'. split; [reflexivity|]. split; [exact Herr|].
  exact (Hlist _ _ (JStr "pragma solidity ^0.4.17;") eq_refl eq_refl eq_refl).
Defined.

(** X11.  In a normal result, a transaction answer whose status is not
    "1" counts for nothing: the transaction count is 0 and deployer and
    creation date are "Unknown", whatever its result holds. *)
Theorem unsuccessful_listing_ignored w st address key tx_data source_data status r st' :
  absent (Some address) = false ->
  getenv w "ETHERSCAN_API_KEY" = Some key ->
  absent (Some key) = false ->
  requests_importable w = true ->
  http w (tx_url address key) = Responds (Ok tx_data) ->
  http w (source_url address key) = Responds (Ok source_data) ->
  Py.get tx_data "status" JNull = Ok status ->
  Py.eq_str status "1" = false ->
  fetch_etherscan_data (Some address) w st = (Ret r, st') ->
  field "error" r = None ->
  field "transaction_count" r = Some (JInt 0) /\
  field "deployer_address" r = Some (JStr "Unknown") /\
  field "creation_date" r = Some (JStr "Unknown").
Proof.
  intros Haddr Hkey Hkey' Himp Htx Hsrc Hstatus Hne Hfetch Herr.
  destruct (fetch_success _ _ _ _ _ _ _ _ Haddr Hkey Hkey' Himp Htx Hsrc Hfetch Herr)
    as (n & deployer & date & verification & Hparse & _ & ->).
  unfold parse_transactions in Hparse. rewrite Hstatus in Hparse. cbn in Hparse.
  rewrite Hne in Hparse. cbn in Hparse. by injection Hparse as <- <- <-.
Qed.

Lemma unsuccessful_listing_ignored_witness :
  exists r st',
    fetch_etherscan_data (Some sample_address) explorer_declines start = (Ret r, st') /\
    field "error" r = None /\
    field "transaction_count" r = Some (JInt 0) /\
    field "deployer_address" r = Some (JStr "Unknown") /\
    field "creation_date" r = Some (JStr "Unknown").
Proof.
  destruct (fetch_etherscan_data (Some sample_address) explorer_declines start)
    as [r st'] eqn:Hfetch.
  destruct r as [r| |]; [|vm_compute in Hfetch; discriminate..].
  assert (field "error" r = None) as Herr.
  { vm_compute in Hfetch. by inversion Hfetch. }
  exists r, st'. split; [reflexivity|]. split; [exact Herr|].
  exact (unsuccessful_listing_ignored explorer_declines start sample_address sample_key
           declined_tx_data sample_source_data (JStr "0") r st'
           eq_refl eq_refl eq_refl eq_refl eq_refl eq_refl eq_refl eq_refl Hfetch Herr).
Defined.

(** X12.  The scan for the creation transaction stops at the first
    transaction whose [to] is the empty string: what follows it in the
    list is not looked at, so it can neither change the outcome nor make
    the scan raise. *)
Theorem scan_stops_at_creation int_of iso pre tx post :
  has_empty_to tx = true ->
  find_creation int_of iso (pre ++ tx :: post) = find_creation int_of iso (pre ++ [tx]).
Proof.
  intros Hto. induction pre as [|t pre IH]; cbn.
  - unfold has_empty_to in Hto.
    destruct (Py.get tx "to" JNull) as [to|]; cbn; [|done].
    by rewrite Hto.
  - destruct (Py.get t "to" JNull) as [to|]; cbn; [|done].
    by destruct (Py.eq_str to "").
Qed.

Lemma scan_stops_at_creation_witness :
  has_empty_to (JObj [("from", JStr "0x1"); ("to", JStr ""); ("timeStamp", JInt 7)]) = true /\
  find_creation sample_int (fun t => Ok (pretty t))
    ([JObj [("to", JStr "0x2")]]
     ++ JObj [("from", JStr "0x1"); ("to", JStr ""); ("timeStamp", JInt 7)]
     :: [JInt 5; JNull])
  = Ok (Some (JStr "0x1", "7")).
Proof.
  split; [reflexivity|].
  rewrite (scan_stops_at_creation sample_int (fun t => Ok (pretty t)) [JObj [("to", JStr "0x2")]]
             (JObj [("from", JStr "0x1"); ("to", JStr ""); ("timeStamp", JInt 7)])
             [JInt 5; JNull] eq_refl).
  reflexivity.
Defined.

Lemma endpoint_never_shows_credential_witness :
  getenv explorer_answers "ETHERSCAN_API_KEY" = Some sample_key /\
  avoids "*" sample_key = true /\
  exists r st' url,
    fetch_etherscan_data (Some sample_address) explorer_answers start = (Ret r, st') /\
    field "api_endpoint" r = Some (JStr url) /\
    PyStr.contains sample_key url = false.
Proof.
  split; [reflexivity|]. split; [reflexivity|].
  destruct (fetch_etherscan_data (Some sample_address) explorer_answers start)
    as [r st'] eqn:Hfetch.
  destruct r as [r| |]; [|vm_compute in Hfetch; discriminate..].
  destruct (field "api_endpoint" r) as [[| | | | | |url| |]|] eqn:Hurl;
    try (vm_compute in Hfetch; injection Hfetch as <- _; vm_compute in Hurl; discriminate).
  exists r, st', url. split; [reflexivity|]. split; [exact Hurl|].
  exact (endpoint_never_shows_credential explorer_answers start (Some sample_address)
           sample_key r st' url eq_refl eq_refl Hfetch Hurl).
Defined.

(** ** The orchestrator, in full *)

Lemma bind_raise {A B} (m : M A) (k : A -> M B) w st e st' :
  m w st = (Raise e, st') -> bind m k w st = (Raise e, st').
Proof. unfold bind. by intros ->. Qed.

Lemma bind_hang {A B} (m : M A) (k : A -> M B) w st st' :
  m w st = (Hang, st') -> bind m k w st = (Hang, st').
Proof. unfold bind. by intros ->. Qed.

Lemma probe_slither w st :
  check_tool_installed "slither" w st
  = (probe_outcome w, State (trace st ++ [slither_probe]) (ticks st)).
Proof.
  unfold check_tool_installed, try_except, probe_outcome, slither_probe.
  cbn [String.eqb Ascii.eqb Bool.eqb]. rewrite check_tool_installed_probe.
  destruct (process w _) as [e|seconds rc out err|]; [|destruct (rc =? 0)|]; try done.
  by destruct (exn_cls e).
Qed.

Lemma validate_accepts w st path :
  valid_path w path = true ->
  validate_contract_path path w st
  = (Ret true, State (trace st ++ [EvPathExists path]) (ticks st)).
Proof.
  unfold valid_path. rewrite andb_true_iff. intros [Hp He].
  unfold validate_contract_path. step. by rewrite Hp, He.
Qed.

Lemma fetch_outcome w st address :
  exists o st' evs,
    fetch_etherscan_data address w st = (o, st') /\
    trace st' = (trace st ++ evs)%list /\
    processes evs = [] /\ outputs evs = [] /\
    match o with
    | Ret _ => fetch_blocks w address = false
    | Raise _ => False
    | Hang => fetch_blocks w address = true
    end.
Proof.
  unfold fetch_blocks.
  fetch_cases w; eexists _, _, _; (split; [reflexivity|]); cbn;
    rewrite <- ?app_assoc; cbn;
    (split; [try (symmetry; apply app_nil_r); reflexivity|]); by repeat split.
Qed.

Lemma fetch_blocks_initial w args :
  fetch_blocks w (address_of (metadata (initial_pipeline args)))
  = fetch_blocks w (arg_address args).
Proof.
  unfold fetch_blocks, initial_pipeline.
  destruct (absent (arg_address args)) eqn:Habsent; cbn [metadata].
  - unfold address_of. by rewrite lookup_empty.
  - unfold address_of. rewrite lookup_insert_eq.
    destruct (arg_address args) as [a|]; [|done]. change (default "" (Some ?x)) with x. by rewrite Habsent.
Qed.

Lemma every_level_audits level :
  bool_decide (level ∈ [QUICK; STANDARD; DEEP; FORENSIC]) = true.
Proof. by destruct level. Qed.

Lemma passed_result_of w n m path :
  passed (result_of w n path) = passed (result_of w m path).
Proof.
  unfold result_of. destruct (process w _) as [|seconds rc out err|]; try done.
  destruct (_ && _); [|done].
  by destruct (analyse (json_loads w) out) as [[[sc reported] ok]|].
Qed.

(** What [run_audit] does on a valid path, by the outcome of the fetch
    and of the probe. *)
Lemma run_audit_valid w st self :
  valid_path w (contract_path self) = true ->
  exists o st1 evs1,
    fetch_etherscan_data (address_of (metadata self)) w
      (State (trace st ++ [EvLog INFO ("Starting " +:+ level_value (audit_level self)
                                       +:+ " audit of " +:+ contract_path self);
                           EvPathExists (contract_path self)]) (S (ticks st)))
    = (o, st1) /\
    trace st1 = (trace st ++ evs1)%list /\
    processes evs1 = [] /\ outputs evs1 = [] /\
    match o with
    | Raise _ => False
    | Hang =>
        fetch_blocks w (address_of (metadata self)) = true /\
        run_audit self w st = (Hang, st1)
    | Ret data =>
        fetch_blocks w (address_of (metadata self)) = false /\
        match probe_outcome w with
        | Raise e =>
            run_audit self w st
            = (Raise e, State (trace st1 ++ [slither_probe]) (ticks st1))
        | Hang =>
            run_audit self w st
            = (Hang, State (trace st1 ++ [slither_probe]) (ticks st1))
        | Ret false =>
            run_audit self w st
            = (Ret (report_of (with_metadata self data)
                      (now_isoformat w (clock w (S (ticks st1)))),
                    with_metadata self data),
               State (trace st1 ++ [slither_probe; EvLog ERROR "Slither not installed"])
                     (2 + ticks st1))
        | Ret true =>
            exists tail,
              run_audit self w st
              = (Ret (report_of (with_result (with_metadata self data)
                                   (result_of w (ticks st1) (contract_path self)))
                        (now_isoformat w (clock w (3 + ticks st1))),
                      with_result (with_metadata self data)
                        (result_of w (ticks st1) (contract_path self))),
                 State (trace st1 ++ [slither_probe;
                                      EvLog INFO "Running Slither static analysis...";
                                      slither_run (contract_path self)] ++ tail)
                       (4 + ticks st1)) /\
              Forall (fun ev => is_subprocess ev = false /\ is_output ev = false) tail
        end
    end.
Proof.
  intros Hvalid.
  destruct (fetch_outcome w
              (State (trace st ++ [EvLog INFO ("Starting " +:+ level_value (audit_level self)
                                               +:+ " audit of " +:+ contract_path self);
                                   EvPathExists (contract_path self)]) (S (ticks st)))
              (address_of (metadata self)))
    as (o & st1 & evs & Hfetch & Htrace & Hproc & Hout & Hblocks).
  cbn [trace] in Htrace. rewrite <- app_assoc in Htrace.
  exists o, st1, ([EvLog INFO ("Starting " +:+ level_value (audit_level self)
                              +:+ " audit of " +:+ contract_path self);
                  EvPathExists (contract_path self)] ++ evs)%list.
  split; [exact Hfetch|]. split; [exact Htrace|].
  split; [exact Hproc|]. split; [exact Hout|].
  destruct o as [data|e|]; [|done|].
  2:{ split; [exact Hblocks|]. unfold run_audit, Logger.info.
      erewrite bind_ret by apply log_run.
      erewrite bind_ret by (apply validate_accepts, Hvalid).
      cbn [negb trace ticks]. rewrite <- app_assoc. cbn [app].
      by erewrite bind_hang by exact Hfetch. }
  split; [exact Hblocks|].
  unfold run_audit, Logger.info.
  erewrite bind_ret by apply log_run.
  erewrite bind_ret by (apply validate_accepts, Hvalid).
  cbn [negb trace ticks]. rewrite <- app_assoc. cbn [app].
  erewrite bind_ret by exact Hfetch.
  rewrite every_level_audits.
  pose proof (probe_slither w st1) as Hprobe.
  destruct (probe_outcome w) as [[|]|e|].
  - destruct (run_trace w (State (trace st1 ++ [slither_probe]) (ticks st1))
                (contract_path self)) as (tail & Hrun & Htail).
    exists tail. split.
    + match goal with |- bind ?m ?k w st1 = _ =>
        erewrite (bind_ret m k)
      end.
      2:{ erewrite bind_ret by exact Hprobe. cbv beta iota.
          erewrite bind_ret by exact Hrun. reflexivity. }
      cbn. unfold report_of, with_result, with_metadata. cbn.
      rewrite <- !app_assoc. reflexivity.
    + destruct Htail as [[_ ->]|[_ [message ->]]]; repeat constructor.
  - match goal with |- bind ?m ?k w st1 = _ =>
      erewrite (bind_ret m k)
    end.
    2:{ erewrite bind_ret by exact Hprobe. cbv beta iota. reflexivity. }
    cbn. unfold report_of, with_metadata. cbn. rewrite <- !app_assoc. reflexivity.
  - erewrite bind_raise; [reflexivity|].
    erewrite bind_raise; [reflexivity|]. exact Hprobe.
  - erewrite bind_hang; [reflexivity|].
    erewrite bind_hang; [reflexivity|]. exact Hprobe.
Qed.

Lemma run_audit_invalid w st self :
  valid_path w (contract_path self) = false ->
  exists message,
    run_audit self w st
    = (Ret (ErrorReport "Invalid contract path", self),
       State (trace st ++ [EvLog INFO ("Starting " +:+ level_value (audit_level self)
                                       +:+ " audit of " +:+ contract_path self);
                           EvPathExists (contract_path self); EvLog ERROR message])
             (2 + ticks st)).
Proof.
  unfold valid_path. rewrite andb_false_iff. intros H.
  unfold run_audit, Logger.info.
  erewrite bind_ret by apply log_run.
  edestruct validate_contract_path_rejects as [message Hv]; [exact H|].
  erewrite bind_ret by apply Hv.
  cbn. rewrite <- app_assoc. by exists message.
Qed.

Lemma write_out_spec w st args report :
  write_out args report w st
  = if absent (arg_output args)
    then (Ret tt, State (trace st ++ [EvOutput None report]) (ticks st))
    else match open_write w (default "" (arg_output args)) with
         | Some e =>
             (Raise e, State (trace st ++ [EvOpen (default "" (arg_output args))]) (ticks st))
         | None =>
             (Ret tt,
              State (trace st ++ [EvOpen (default "" (arg_output args));
                                  EvOutput (Some (default "" (arg_output args))) report;
                                  EvLog SUCCESS ("Audit report saved to "
                                                 +:+ default "" (arg_output args))])
                    (S (ticks st)))
         end.
Proof.
  unfold write_out. destruct (absent (arg_output args)); [reflexivity|].
  step. destruct (open_write w _); cbn; [done|]. by rewrite <- !app_assoc.
Qed.

Lemma main_run_unfold args :
  main_run args
  = (ran <- run_audit (initial_pipeline args) ;;
     let '(report, pipeline) := ran in
     write_out args report ;;
     ret (if all_passed (results pipeline) then 0 else 1, pipeline))%M.
Proof.
  unfold main_run, initial_pipeline, write_out.
  by destruct (absent (arg_address args)).
Qed.

(** [main] after [run_audit] has returned. *)
Lemma main_run_after w st args report p st1 :
  run_audit (initial_pipeline args) w st = (Ret (report, p), st1) ->
  main_run args w st
  = match write_out args report w st1 with
    | (Ret _, st2) => (Ret (if all_passed (results p) then 0 else 1, p), st2)
    | (Raise e, st2) => (Raise e, st2)
    | (Hang, st2) => (Hang, st2)
    end.
Proof.
  intros Hrun. rewrite main_run_unfold. erewrite bind_ret by exact Hrun.
  unfold bind, ret. by destruct (write_out args report w st1) as [[| |] ?].
Qed.

Lemma main_of_main_run w st args :
  main args w st
  = match main_run args w st with
    | (Ret ran, st') => (Ret (fst ran), st')
    | (Raise e, st') => (Raise e, st')
    | (Hang, st') => (Hang, st')
    end.
Proof. unfold main, bind, ret. by destruct (main_run args w st) as [[| |] ?]. Qed.

Lemma written_spec w st args report code :
  written w args code
  = match fst (write_out args report w st) with
    | Ret _ => Ret code
    | Raise e => Raise e
    | Hang => Hang
    end.
Proof.
  rewrite write_out_spec. unfold written.
  destruct (absent (arg_output args)); [done|]. by destruct (open_write w _).
Qed.

(** How [main] ends. *)
Lemma main_exit w st args : fst (main args w st) = exit_outcome w args.
Proof.
  assert (results (initial_pipeline args) = []) as Hnone.
  { unfold initial_pipeline. by destruct (absent (arg_address args)). }
  assert (contract_path (initial_pipeline args) = arg_contract args) as Hpath.
  { unfold initial_pipeline. by destruct (absent (arg_address args)). }
  rewrite main_of_main_run. unfold exit_outcome.
  destruct (valid_path w (arg_contract args)) eqn:Hvalid.
  - destruct (run_audit_valid w st (initial_pipeline args)) as
      (o & st1 & evs1 & _ & _ & _ & _ & Hcases); [by rewrite Hpath|].
    rewrite Hpath, fetch_blocks_initial in Hcases.
    destruct o as [data|e|]; [|done|].
    2:{ destruct Hcases as [-> Hrun]. rewrite main_run_unfold.
        by erewrite bind_hang by exact Hrun. }
    destruct Hcases as [-> Hcases].
    destruct (probe_outcome w) as [[|]|e|].
    + destruct Hcases as (tail & Hrun & _).
      rewrite (main_run_after _ _ _ _ _ _ Hrun). unfold all_passed.
      cbn [results with_result with_metadata]. rewrite Hnone. cbn [app forallb].
      rewrite andb_true_r, (passed_result_of w _ 0).
      match goal with |- context [write_out args ?r w ?s] =>
        rewrite (written_spec w s args r);
        by destruct (write_out args r w s) as [[| |] ?] end.
    + rewrite (main_run_after _ _ _ _ _ _ Hcases). unfold all_passed.
      cbn [results with_metadata]. rewrite Hnone. cbn [forallb].
      match goal with |- context [write_out args ?r w ?s] =>
        rewrite (written_spec w s args r);
        by destruct (write_out args r w s) as [[| |] ?] end.
    + rewrite main_run_unfold. by erewrite bind_raise by exact Hcases.
    + rewrite main_run_unfold. by erewrite bind_hang by exact Hcases.
  - destruct (run_audit_invalid w st (initial_pipeline args)) as [message Hrun];
      [by rewrite Hpath|].
    rewrite (main_run_after _ _ _ _ _ _ Hrun). unfold all_passed.
    rewrite Hnone. cbn [forallb].
    match goal with |- context [write_out args ?r w ?s] =>
      rewrite (written_spec w s args r);
      by destruct (write_out args r w s) as [[| |] ?] end.
Qed.

Lemma processes_app evs evs' : processes (evs ++ evs') = (processes evs ++ processes evs')%list.
Proof. apply List.filter_app. Qed.

Lemma outputs_app evs evs' : outputs (evs ++ evs') = (outputs evs ++ outputs evs')%list.
Proof. apply List.filter_app. Qed.

Lemma quiet_tail tail :
  Forall (fun ev => is_subprocess ev = false /\ is_output ev = false) tail ->
  processes tail = [] /\ outputs tail = [].
Proof.
  induction 1 as [|ev tail [Hp Ho] _ [IHp IHo]]; [done|].
  unfold processes, outputs in *. cbn. by rewrite Hp, Ho.
Qed.

(** X14.  On a valid path, when [run_audit] returns, the pipeline has the
    same path and level, its metadata is the old one with the fetcher's
    answer for the stored address under [etherscan_data], and its results
    are the old ones, followed by the analyzer's result if the probe
    answered true and by nothing if it answered false.  The report
    repeats path, level label, the summaries of all these results in
    order, and the metadata. *)
Theorem run_audit_records w st self report after st' :
  valid_path w (contract_path self) = true ->
  run_audit self w st = (Ret (report, after), st') ->
  contract_path after = contract_path self /\
  audit_level after = audit_level self /\
  (exists data s0 s1,
     fetch_etherscan_data (address_of (metadata self)) w s0 = (Ret data, s1) /\
     metadata after = <["etherscan_data" := data]> (metadata self)) /\
  ((probe_outcome w = Ret false /\ results after = results self)
   \/ (probe_outcome w = Ret true /\
       exists r s0 s1,
         run (contract_path self) w s0 = (Ret r, s1) /\
         results after = (results self ++ [r])%list)) /\
  exists timestamp,
    report = FullReport (contract_path self) (level_value (audit_level self)) timestamp
                        (summary <$> results after) (metadata after).
Proof.
  intros Hvalid Hrun.
  destruct (run_audit_valid w st self Hvalid)
    as (o & st1 & evs1 & Hfetch & _ & _ & _ & Hcases).
  destruct o as [data|e|]; [|done|destruct Hcases as [_ Hhang]; congruence].
  destruct Hcases as [_ Hcases].
  destruct (probe_outcome w) as [[|]|e|]; [| |congruence..].
  - destruct Hcases as (tail & Heq & _). rewrite Heq in Hrun.
    injection Hrun as <- <- <-.
    cbn [contract_path audit_level results metadata with_result with_metadata].
    split; [done|]. split; [done|]. split; [by eexists _, _, _|]. split.
    + right. split; [done|].
      destruct (run_spec w (State (trace st1 ++ [slither_probe]) (ticks st1))
                  (contract_path self)) as [s1 Hr].
      eexists _, _, s1. split; [exact Hr|reflexivity].
    + by eexists.
  - rewrite Hcases in Hrun. injection Hrun as <- <- <-.
    cbn [contract_path audit_level results metadata with_result with_metadata].
    split; [done|]. split; [done|]. split; [by eexists _, _, _|].
    split; [by left|]. by eexists.
Qed.

Lemma run_audit_records_witness :
  valid_path analyzer_reports "Token.sol" = true /\
  exists report after st',
    run_audit (mkAuditPipeline "Token.sol" DEEP [] ∅) analyzer_reports start
    = (Ret (report, after), st') /\
    is_Some (metadata after !! "etherscan_data") /\
    exists r, results after = [r].
Proof.
  split; [reflexivity|].
  destruct (run_audit (mkAuditPipeline "Token.sol" DEEP [] ∅) analyzer_reports start)
    as [[[report after]| |] st'] eqn:Hrun; [|vm_compute in Hrun; discriminate..].
  destruct (run_audit_records analyzer_reports start
              (mkAuditPipeline "Token.sol" DEEP [] ∅) report after st' eq_refl Hrun)
    as (_ & _ & (data & _ & _ & _ & Hmeta) & Hresults & _).
  exists report, after, st'. split; [reflexivity|]. split.
  - rewrite Hmeta. rewrite lookup_insert_eq. by eexists.
  - destruct Hresults as [[Hprobe _]|[_ (r & _ & _ & _ & Hr)]].
    + vm_compute in Hprobe. discriminate.
    + exists r. exact Hr.
Defined.

(** X15.  On a valid path [run_audit] starts no process as long as the
    metadata fetch is blocked on a request that is never answered.  Once
    the fetch has returned, it always queries the version of the
    analyzer, without a timeout, and starts the analyzer itself only
    after that query exited with status zero; these are the only
    processes it starts, and it writes no report itself. *)
Theorem analyzer_only_after_probe w st self :
  valid_path w (contract_path self) = true ->
  exists o st' evs,
    run_audit self w st = (o, st') /\
    trace st' = (trace st ++ evs)%list /\
    processes evs
    = (if fetch_blocks w (address_of (metadata self)) then []
       else slither_probe :: match probe_outcome w with
                             | Ret true => [slither_run (contract_path self)]
                             | _ => []
                             end) /\
    outputs evs = [].
Proof.
  intros Hvalid.
  destruct (run_audit_valid w st self Hvalid)
    as (o & st1 & evs1 & _ & Htrace & Hproc & Hout & Hcases).
  destruct o as [data|e|]; [|done|].
  2:{ destruct Hcases as [-> Hrun]. by exists Hang, st1, evs1. }
  destruct Hcases as [-> Hcases].
  destruct (probe_outcome w) as [[|]|e|].
  - destruct Hcases as (tail & Heq & Htail). destruct (quiet_tail _ Htail) as [Hp Ho].
    eexists _, _, _. split; [exact Heq|]. cbn [trace].
    rewrite Htrace, <- app_assoc. split; [reflexivity|].
    rewrite processes_app, outputs_app, Hproc, Hout. cbn [app].
    change (processes (?a :: ?b :: ?c :: tail))
      with (processes ([a; b; c] ++ tail)).
    change (outputs (?a :: ?b :: ?c :: tail))
      with (outputs ([a; b; c] ++ tail)).
    by rewrite processes_app, outputs_app, Hp, Ho.
  - eexists _, _, _. split; [exact Hcases|]. cbn [trace].
    rewrite Htrace, <- app_assoc. split; [reflexivity|].
    by rewrite processes_app, outputs_app, Hproc, Hout.
  - eexists _, _, _. split; [exact Hcases|]. cbn [trace].
    rewrite Htrace, <- app_assoc. split; [reflexivity|].
    by rewrite processes_app, outputs_app, Hproc, Hout.
  - eexists _, _, _. split; [exact Hcases|]. cbn [trace].
    rewrite Htrace, <- app_assoc. split; [reflexivity|].
    by rewrite processes_app, outputs_app, Hproc, Hout.
Qed.

Lemma analyzer_only_after_probe_witness :
  (valid_path only_contract "Token.sol" = true /\
   exists o st' evs,
     run_audit (mkAuditPipeline "Token.sol" QUICK [] ∅) only_contract start = (o, st') /\
     trace st' = (trace start ++ evs)%list /\
     processes evs = [slither_probe] /\
     outputs evs = []) /\
  (valid_path explorer_stalls "Token.sol" = true /\
   exists o st' evs,
     run_audit (initial_pipeline (mkArgs "Token.sol" QUICK (Some sample_address) None))
       explorer_stalls start = (o, st') /\
     trace st' = (trace start ++ evs)%list /\
     processes evs = [] /\
     outputs evs = []).
Proof.
  split; (split; [reflexivity|]).
  - exact (analyzer_only_after_probe only_contract start
             (mkAuditPipeline "Token.sol" QUICK [] ∅) eq_refl).
  - exact (analyzer_only_after_probe explorer_stalls start
             (initial_pipeline (mkArgs "Token.sol" QUICK (Some sample_address) None))
             eq_refl).
Defined.

(** ** main, in full *)

Lemma run_audit_quiet w st self :
  exists o st1 evs,
    run_audit self w st = (o, st1) /\
    trace st1 = (trace st ++ evs)%list /\ outputs evs = [].
Proof.
  destruct (valid_path w (contract_path self)) eqn:Hvalid.
  - destruct (run_audit_valid w st self Hvalid)
      as (o & st1 & evs1 & _ & Htrace & _ & Hout & Hcases).
    destruct o as [data|e|]; [|done|].
    2:{ destruct Hcases as [_ Hrun]. by exists Hang, st1, evs1. }
    destruct Hcases as [_ Hcases].
    destruct (probe_outcome w) as [[|]|e|].
    + destruct Hcases as (tail & Heq & Htail). destruct (quiet_tail _ Htail) as [_ Ho].
      eexists _, _, _. split; [exact Heq|]. cbn [trace].
      rewrite Htrace, <- app_assoc. split; [reflexivity|].
      rewrite outputs_app, Hout. cbn [app].
      change (outputs (?a :: ?b :: ?c :: tail)) with (outputs ([a; b; c] ++ tail)).
      by rewrite outputs_app, Ho.
    + eexists _, _, _. split; [exact Hcases|]. cbn [trace].
      rewrite Htrace, <- app_assoc. split; [reflexivity|]. by rewrite outputs_app, Hout.
    + eexists _, _, _. split; [exact Hcases|]. cbn [trace].
      rewrite Htrace, <- app_assoc. split; [reflexivity|]. by rewrite outputs_app, Hout.
    + eexists _, _, _. split; [exact Hcases|]. cbn [trace].
      rewrite Htrace, <- app_assoc. split; [reflexivity|]. by rewrite outputs_app, Hout.
  - destruct (run_audit_invalid w st self Hvalid) as [message Heq].
    eexists _, _, _. split; [exact Heq|]. by split.
Qed.

Lemma validate_true_iff w path :
  (exists s0 s1, validate_contract_path path w s0 = (Ret true, s1))
  <-> valid_path w path = true.
Proof.
  split.
  - intros (s0 & s1 & H). destruct (valid_path w path) eqn:Hv; [done|].
    unfold valid_path in Hv. rewrite andb_false_iff in Hv.
    destruct (validate_contract_path_rejects w s0 path Hv) as [message Hr]. congruence.
  - intros Hv. exists start. eexists. by apply validate_accepts.
Qed.

Lemma probe_true_iff w o :
  (exists s0 s1, check_tool_installed "slither" w s0 = (o, s1)) <-> probe_outcome w = o.
Proof.
  split.
  - intros (s0 & s1 & H). rewrite probe_slither in H. congruence.
  - intros <-. exists start. eexists. apply probe_slither.
Qed.

Lemma run_fails_iff w path :
  (exists r s0 s1, run path w s0 = (Ret r, s1) /\ passed r = false)
  <-> passed (result_of w 0 path) = false.
Proof.
  split.
  - intros (r & s0 & s1 & Hrun & Hp). destruct (run_spec w s0 path) as [s Hr].
    rewrite Hr in Hrun. injection Hrun as <- _. by rewrite (passed_result_of w 0 (ticks s0)).
  - intros Hp. destruct (run_spec w start path) as [s Hr]. by eexists _, _, _.
Qed.

(** X16.  How [main] ends (its exit code, the exception it dies of, or
    not at all) is decided by the contract path, the output path and
    whether the metadata fetch blocks on a request that is never
    answered.  Two runs that agree on these three end alike, whatever the
    audit level and the address given on the command line, whatever
    [os.getenv] returns (the credential), and whatever the explorer
    answers.  The rest of the world (files, processes, clock) is the
    same in both runs. *)
Theorem exit_ignores_level_address_network w st st' args args' vars answers :
  arg_contract args = arg_contract args' ->
  arg_output args = arg_output args' ->
  fetch_blocks w (arg_address args)
  = fetch_blocks (with_http answers (with_getenv vars w)) (arg_address args') ->
  fst (main args w st) = fst (main args' (with_http answers (with_getenv vars w)) st').
Proof.
  intros Hc Ho Hb. rewrite !main_exit.
  unfold exit_outcome. rewrite Hb.
  unfold written, valid_path, probe_outcome, result_of.
  rewrite Hc, Ho. reflexivity.
Qed.

Lemma exit_ignores_level_address_network_witness :
  fetch_blocks analyzer_reports None = false /\
  fetch_blocks (with_http (http explorer_answers)
                  (with_getenv (getenv explorer_answers) analyzer_reports))
    (Some sample_address) = false /\
  fst (main (mkArgs "Token.sol" QUICK None None) analyzer_reports start)
  = fst (main (mkArgs "Token.sol" FORENSIC (Some sample_address) None)
           (with_http (http explorer_answers)
              (with_getenv (getenv explorer_answers) analyzer_reports)) start)
  /\ fst (main (mkArgs "Token.sol" QUICK None None) analyzer_reports start) = Ret 1
  /\ fst (main (mkArgs "Token.sol" FORENSIC (Some sample_address) None)
           (with_http (http explorer_answers)
              (with_getenv (getenv explorer_answers) analyzer_reports)) start) = Ret 1.
Proof.
  split; [reflexivity|]. split; [reflexivity|]. split.
  - exact (exit_ignores_level_address_network analyzer_reports start start
             (mkArgs "Token.sol" QUICK None None)
             (mkArgs "Token.sol" FORENSIC (Some sample_address) None)
             (getenv explorer_answers) (http explorer_answers) eq_refl eq_refl eq_refl).
  - split; vm_compute; reflexivity.
Defined.

(** X17.  With a contract path that does not exist or does not end in
    [.sol], [main] still exits with code 0, provided the report can be
    written (to the standard output, or to a file that opens). *)
Theorem invalid_path_exits_zero w st args :
  valid_path w (arg_contract args) = false ->
  absent (arg_output args) = true
  \/ open_write w (default "" (arg_output args)) = None ->
  exists st', main args w st = (Ret 0, st').
Proof.
  intros Hvalid Hout. pose proof (main_exit w st args) as Hexit.
  unfold exit_outcome, written in Hexit. rewrite Hvalid in Hexit.
  destruct (main args w st) as [o st']. exists st'. cbn in Hexit. rewrite Hexit.
  destruct Hout as [->| ->]; [done|]. by destruct (absent (arg_output args)).
Qed.

Lemma invalid_path_exits_zero_witness :
  valid_path bare "Token.txt" = false /\
  exists st', main (mkArgs "Token.txt" QUICK None None) bare start = (Ret 0, st').
Proof.
  split; [reflexivity|].
  exact (invalid_path_exits_zero bare start (mkArgs "Token.txt" QUICK None None)
           eq_refl (or_introl eq_refl)).
Defined.

(** X18.  When [main] exits with a code, the code is 1 exactly when the
    path passes validation, the probe answers that the analyzer is
    installed, and the result of the analyzer run does not pass; in all
    other cases it is 0. *)
Theorem exit_one_iff w st args code st' :
  main args w st = (Ret code, st') ->
  (code = 1 <->
   (exists s0 s1, validate_contract_path (arg_contract args) w s0 = (Ret true, s1)) /\
   (exists s0 s1, check_tool_installed "slither" w s0 = (Ret true, s1)) /\
   (exists r s0 s1, run (arg_contract args) w s0 = (Ret r, s1) /\ passed r = false)) /\
  (code <> 1 -> code = 0).
Proof.
  intros Hmain. pose proof (main_exit w st args) as Hexit. rewrite Hmain in Hexit.
  cbn in Hexit. rewrite validate_true_iff, probe_true_iff, run_fails_iff.
  unfold exit_outcome, written in Hexit.
  destruct (valid_path w (arg_contract args)).
  - destruct (fetch_blocks w (arg_address args)); [discriminate|].
    destruct (probe_outcome w) as [[|]|e|]; try discriminate.
    + destruct (passed (result_of w 0 (arg_contract args)));
        destruct (absent (arg_output args)); try destruct (open_write w _);
        try discriminate; injection Hexit as ->; split; try done;
        split; try done; intros (_ & _ & ?); done.
    + destruct (absent (arg_output args)); try destruct (open_write w _);
        try discriminate; injection Hexit as ->; split; try done;
        split; try done; intros (_ & ? & _); done.
  - destruct (absent (arg_output args)); try destruct (open_write w _);
      try discriminate; injection Hexit as ->; split; try done;
      split; try done; intros (? & _ & _); done.
Qed.

Lemma exit_one_iff_witness :
  exists st',
    main (mkArgs "Token.sol" QUICK None None) analyzer_reports start = (Ret 1, st') /\
    exists r s0 s1, run "Token.sol" analyzer_reports s0 = (Ret r, s1) /\ passed r = false.
Proof.
  destruct (main (mkArgs "Token.sol" QUICK None None) analyzer_reports start)
    as [[code| |] st'] eqn:Hmain; [|vm_compute in Hmain; discriminate..].
  assert (code = 1) as -> by (vm_compute in Hmain; by injection Hmain as <- _).
  destruct (exit_one_iff analyzer_reports start _ 1 st' Hmain) as [Hiff _].
  exists st'. split; [reflexivity|].
  exact (proj2 (proj2 (proj1 Hiff eq_refl))).
Defined.

(** X19.  On a valid path, once the metadata fetch has returned, an
    exception of the version query that [check_tool_installed] does not
    catch ends [main]: the exception reaches the caller of [main] and no
    report is written, although the metadata had been fetched. *)
Theorem probe_exception_ends_main w st args e :
  valid_path w (arg_contract args) = true ->
  fetch_blocks w (arg_address args) = false ->
  (exists s0 s1, check_tool_installed "slither" w s0 = (Raise e, s1)) ->
  exists st' evs,
    main args w st = (Raise e, st') /\
    trace st' = (trace st ++ evs)%list /\
    outputs evs = [] /\
    processes evs = [slither_probe].
Proof.
  intros Hvalid Hblocks Hprobe. apply probe_true_iff in Hprobe.
  assert (contract_path (initial_pipeline args) = arg_contract args) as Hpath.
  { unfold initial_pipeline. by destruct (absent (arg_address args)). }
  destruct (run_audit_valid w st (initial_pipeline args))
    as (o & st1 & evs1 & _ & Htrace & Hproc & Hout & Hcases); [by rewrite Hpath|].
  rewrite fetch_blocks_initial, Hblocks in Hcases.
  destruct o as [data|e'|]; [|done|by destruct Hcases].
  destruct Hcases as [_ Hcases]. rewrite Hprobe in Hcases.
  eexists _, _. split.
  - rewrite main_of_main_run, main_run_unfold. by erewrite bind_raise by exact Hcases.
  - cbn [trace]. rewrite Htrace, <- app_assoc. split; [reflexivity|].
    by rewrite outputs_app, processes_app, Hout, Hproc.
Qed.

Lemma probe_exception_ends_main_witness :
  valid_path analyzer_not_executable "Token.sol" = true /\
  exists st' evs,
    main (mkArgs "Token.sol" QUICK None None) analyzer_not_executable start
    = (Raise (Exn PermissionError "[Errno 13] Permission denied: 'slither'"), st') /\
    trace st' = (trace start ++ evs)%list /\
    outputs evs = [] /\
    processes evs = [slither_probe].
Proof.
  split; [reflexivity|].
  apply (probe_exception_ends_main analyzer_not_executable start
           (mkArgs "Token.sol" QUICK None None)
           (Exn PermissionError "[Errno 13] Permission denied: 'slither'") eq_refl eq_refl).
  exists start. eexists. reflexivity.
Defined.

(** X20.  [main] writes the report exactly once when it exits with a
    code, and it is the report [run_audit] returned for the pipeline
    built from the command line, sent to the output file if one was
    named and to the standard output otherwise.  When [main] ends with
    an exception or does not end, no report has been written. *)
Theorem report_written_once w st args :
  exists o st' evs,
    main args w st = (o, st') /\
    trace st' = (trace st ++ evs)%list /\
    match o with
    | Ret _ =>
        exists report p s1,
          run_audit (initial_pipeline args) w st = (Ret (report, p), s1) /\
          outputs evs
          = [EvOutput (if absent (arg_output args) then None
                       else Some (default "" (arg_output args))) report]
    | _ => outputs evs = []
    end.
Proof.
  destruct (run_audit_quiet w st (initial_pipeline args)) as (o & s1 & evs & Hrun & Htrace & Hout).
  rewrite main_of_main_run.
  destruct o as [[report p]|e|].
  - rewrite (main_run_after _ _ _ _ _ _ Hrun), write_out_spec.
    destruct (absent (arg_output args)).
    + eexists _, _, _. split; [reflexivity|]. cbn [trace].
      rewrite Htrace, <- app_assoc. split; [reflexivity|].
      exists report, p, s1. split; [done|]. by rewrite outputs_app, Hout.
    + destruct (open_write w _).
      * eexists _, _, _. split; [reflexivity|]. cbn [trace].
        rewrite Htrace, <- app_assoc. split; [reflexivity|].
        by rewrite outputs_app, Hout.
      * eexists _, _, _. split; [reflexivity|]. cbn [trace].
        rewrite Htrace, <- app_assoc. split; [reflexivity|].
        exists report, p, s1. split; [done|]. by rewrite outputs_app, Hout.
  - rewrite main_run_unfold. erewrite bind_raise by exact Hrun.
    exists (Raise e), s1, evs. by repeat split.
  - rewrite main_run_unfold. erewrite bind_hang by exact Hrun.
    exists Hang, s1, evs. by repeat split.
Qed.

(** X21.  When the output file cannot be opened, [main] ends with the
    exception of [open] after the whole audit has run: the last thing it
    did is the attempt to open the file, and the exit code the results
    would have given is lost. *)
Theorem unwritable_output_ends_main w st args report p s1 e :
  run_audit (initial_pipeline args) w st = (Ret (report, p), s1) ->
  absent (arg_output args) = false ->
  open_write w (default "" (arg_output args)) = Some e ->
  main args w st
  = (Raise e, State (trace s1 ++ [EvOpen (default "" (arg_output args))]) (ticks s1)).
Proof.
  intros Hrun Habsent Hopen.
  rewrite main_of_main_run, (main_run_after _ _ _ _ _ _ Hrun), write_out_spec.
  by rewrite Habsent, Hopen.
Qed.

Lemma unwritable_output_ends_main_witness :
  exists report p s1,
    run_audit (initial_pipeline (mkArgs "Token.sol" QUICK None (Some "report.json")))
      read_only_disk start = (Ret (report, p), s1) /\
    main (mkArgs "Token.sol" QUICK None (Some "report.json")) read_only_disk start
    = (Raise (Exn PermissionError "[Errno 13] Permission denied: 'report.json'"),
       State (trace s1 ++ [EvOpen "report.json"]) (ticks s1)).
Proof.
  destruct (run_audit (initial_pipeline (mkArgs "Token.sol" QUICK None (Some "report.json")))
              read_only_disk start) as [[[report p]| |] s1] eqn:Hrun;
    [|vm_compute in Hrun; discriminate..].
  exists report, p, s1. split; [reflexivity|].
  exact (unwritable_output_ends_main read_only_disk start
           (mkArgs "Token.sol" QUICK None (Some "report.json")) report p s1
           (Exn PermissionError "[Errno 13] Permission denied: 'report.json'")
           Hrun eq_refl eq_refl).
Defined.

Lemma validate_contract_path_spec_witness :
  (exists st',
     validate_contract_path "Token.sol" only_contract start = (Ret true, st') /\
     st' = State [EvPathExists "Token.sol"] 0) /\
  (exists st' message,
     validate_contract_path "Token.SOL" (with_files (fun _ => true) bare) start
     = (Ret false, st') /\
     st' = State [EvPathExists "Token.SOL"; EvLog ERROR message] 1).
Proof.
  split.
  - destruct (validate_contract_path_spec only_contract start "Token.sol")
      as (ok & st' & Hrun & Hiff & Hyes & _).
    assert (ok = true) as ->.
    { apply Hiff. split; [reflexivity|]. by exists "Token". }
    exists st'. split; [exact Hrun|]. exact (Hyes eq_refl).
  - destruct (validate_contract_path_spec (with_files (fun _ => true) bare) start "Token.SOL")
      as (ok & st' & Hrun & Hiff & _ & Hno).
    assert (ok = false) as ->.
    { destruct ok; [|done]. vm_compute in Hrun. discriminate. }
    destruct (Hno eq_refl) as [message ->].
    eexists _, message. split; [exact Hrun|reflexivity].
Defined.

End Further.

(** * Worked runs *)

Section Runs.

Import SlitherAnalyzer SlitherSpec.

Example lower_mixed : PyStr.lower "HiGh-Risk_9" = "high-risk_9".
Proof. reflexivity. Qed.

Example endswith_sol : PyStr.endswith ".sol" "Token.sol" = true.
Proof. reflexivity. Qed.

Example endswith_short : PyStr.endswith ".sol" "sol" = false.
Proof. reflexivity. Qed.

Example replace_overlap : PyStr.replace "aa" "***" "xaaay" = "x***ay".
Proof. reflexivity. Qed.

Example int_float : Py.int sample_int (JFloat (-7 # 2)) = Ok (-3).
Proof. reflexivity. Qed.

(** A source lookup that is never answered blocks the fetch after both
    requests were sent, and with it [main]: no process is started and
    no report written. *)
Example stalled_lookup_blocks_main :
  exists st',
    main (mkArgs "Token.sol" QUICK (Some sample_address) None) explorer_stalls start
    = (Hang, st') /\
    requests (trace st')
    = [EvGet (AuditPipeline.tx_url sample_address sample_key) 10;
       EvGet (AuditPipeline.source_url sample_address sample_key) 10] /\
    processes (trace st') = [] /\ outputs (trace st') = [].
Proof. eexists. split; [vm_compute; reflexivity|]. by vm_compute. Qed.

(** One high, one informational, one finding without severity and one
    with a severity of no bucket: four findings kept, three counted,
    the run does not pass. *)
Example run_reports :
  exists st',
    run "Token.sol" analyzer_reports start
    = (Ret (mkAuditResult "Slither"
              (<["high" := 1%nat]> (<["informational" := 2%nat]> initial_count))
              (JArr [JObj [("severity", JStr "High")];
                     JObj [("severity", JStr "Informational")];
                     JObj [("check", JStr "x")];
                     JObj [("severity", JStr "Optimization")]])
              1000000 false), st').
Proof. eexists. vm_compute. reflexivity. Qed.

(** The detections of a well-formed answer may be the empty string:
    the loop has nothing to visit and the string is what [findings]
    holds. *)
Example run_empty_string_detections :
  let w :=
    with_json (fun _ => Ok (JObj [("results", JObj [("detections", JStr "")])]))
              analyzer_reports in
  exists st',
    run "Token.sol" w start
    = (Ret (mkAuditResult "Slither" initial_count (JStr "") 1000000 true), st').
Proof. eexists. vm_compute. reflexivity. Qed.

(** A tool name without a branch is reported installed, and nothing
    is started. *)
Example mythx_unprobed :
  In "mythx" TOOLS_CONFIG /\
  check_tool_installed "mythx" bare start = (Ret true, start).
Proof. split; [cbn; tauto|reflexivity]. Qed.

(** A version query that never returns blocks the check. *)
Example probe_blocks :
  check_tool_installed "slither" (with_process (fun _ => RunsForever) bare) start
  = (Hang, State [EvRun ["slither"; "--version"] true false true None] 0).
Proof. reflexivity. Qed.

(** The same process under [run] is cut off by the timeout. *)
Example run_times_out :
  exists st', run "Token.sol" (with_process (fun _ => RunsForever) bare) start
              = (Ret failed, st').
Proof. eexists. vm_compute. reflexivity. Qed.

(** Only transfers in the history: the count is kept, deployer and
    creation date stay unknown. *)
Example transfers_only :
  exists r st',
    AuditPipeline.fetch_etherscan_data (Some sample_address)
      explorer_answers_transfers_only start = (Ret r, st') /\
    field "transaction_count" r = Some (JInt 1) /\
    field "deployer_address" r = Some (JStr "Unknown") /\
    field "creation_date" r = Some (JStr "Unknown") /\
    field "verification_status" r = Some (JStr "verified").
Proof. eexists _, _. split; [vm_compute; reflexivity|]. by vm_compute. Qed.

(** On the success path the echoed request has the credential masked. *)
Example endpoint_masked :
  exists r st' url,
    AuditPipeline.fetch_etherscan_data (Some sample_address) explorer_answers start
    = (Ret r, st') /\
    field "api_endpoint" r = Some (JStr url) /\
    PyStr.endswith "&apikey=***" url = true /\
    mentions sample_key r = false.
Proof. eexists _, _, _. split; [vm_compute; reflexivity|]. by vm_compute. Qed.

(** A time stamp that is not a number turns two answered requests
    into an error-marked dict. *)
Example bad_timestamp :
  let w :=
    with_http (fun _ => Responds (Ok (JObj
      [("status", JStr "1");
       ("result", JArr [JObj [("from", JStr "0x1"); ("to", JStr "");
                              ("timeStamp", JStr "soon")]])])))
      (with_key bare) in
  exists st',
    AuditPipeline.fetch_etherscan_data (Some sample_address) w start
    = (Ret (JObj [("error",
                   JStr "Unexpected error: invalid literal for int() with base 10: 'soon'");
                  ("contract_address", JStr sample_address)]), st').
Proof. eexists. vm_compute. reflexivity. Qed.

(** End to end: the contract exists, no address, the analyzer is
    missing: no result, a note in the metadata, exit code 0. *)
Example vacuous_pass :
  exists p st' note,
    main_run (mkArgs "Token.sol" QUICK None None) only_contract start
    = (Ret (0, p), st') /\
    results p = [] /\
    metadata p !! "etherscan_data" = Some note /\ is_Some (field "note" note).
Proof.
  eexists _, _, _. split; [vm_compute; reflexivity|].
  split; [reflexivity|]. split; [vm_compute; reflexivity|].
  vm_compute. by eexists.
Qed.

(** End to end: the analyzer reports a high finding: exit code 1. *)
Example failing_audit :
  exists p st',
    main_run (mkArgs "Token.sol" STANDARD None None) analyzer_reports start
    = (Ret (1, p), st') /\
    passed <$> results p = [false].
Proof. eexists _, _. split; [vm_compute; reflexivity|]. by vm_compute. Qed.

(** An invalid path ends the run with exit code 0 as well: nothing
    was recorded. *)
Example invalid_path_exit_code :
  main (mkArgs "Token.txt" QUICK None None) bare start
  = (Ret 0,
     State [EvLog INFO "Starting quick audit of Token.txt";
            EvPathExists "Token.txt";
            EvLog ERROR "Contract file not found: Token.txt";
            EvOutput None (ErrorReport "Invalid contract path")] 2).
Proof. reflexivity. Qed.

(** An analyzer that may not be executed ends [main] with the
    exception of the probe. *)
Example probe_error_ends_main :
  exists st',
    main (mkArgs "Token.sol" QUICK None None) analyzer_not_executable start
    = (Raise (Exn PermissionError "[Errno 13] Permission denied: 'slither'"), st').
Proof. eexists. vm_compute. reflexivity. Qed.

End Runs.
